(* ===== verification/_CoqProject ===== *)
-Q . S2P
Prelude.v
PyRuntime.v
Catalog.v
Options.v
Fixtures.v
HealthCheck.v
Supervisor.v
Client.v
Main.v
