(* ===== verification/Prelude.v ===== *)
(** * Verification of [src/bin/server_bench.py]

    [server_bench.py] is the benchmark harness of the [sysstatd] HTTP
    server project (Python 2, one file).  One program plays two roles:
    - the server role (no URL argument): prepare a server root with three
      fixture files, launch the student server on a port derived from the
      pid, register an [atexit] cleanup that kills it, poll it with a
      five-path health check up to ten times one second apart, then print
      the URL for the client and wait for the server;
    - the client role (a URL argument): refuse to run on the server's
      host, run the external load generator [wrk] once per selected
      scenario, collect each JSON result under the scenario's name and
      write one report [sysstatd.results.<pid>.json].
    Both roles share the scenario catalog and the command-line handling.

    ** Files and what they model
    - [Prelude] (this file): Python string operations the harness uses
      ([split], [join], [in], [endswith], [rstrip], slicing, [str(int)],
      [s * n])
      as executable functions, dictionary building by folding inserts,
      the development's hint databases [harness] / [harness_rw] and the
      tactic [by_eval].
    - [PyRuntime]: the Python runtime as a reader-state-exception monad
      [Py]: [env] holds what the program observes (host, pid, the
      behaviour of children, of the server under test and of the JSON
      library), [state] the file system, executables, descriptor limit,
      child processes, atexit handlers, clock and the trace of output
      events.  Python's exception hierarchy is kept: [SystemExit] and
      [KeyboardInterrupt] are not [Exception]s, so [try_except] (except
      Exception) and [try_bare] (bare except) differ.  [run_process]
      runs a program as the interpreter does: the atexit handlers run on
      every exit but SIGTERM, and the exit status is computed.  The
      frame classes [Stable R m] (every path keeps the state relation
      [R]) and [ExcOnly P m] (only [Exception]s escape) are proved once
      per primitive and composed by instances.
    - [Catalog] (lines 13-66): [runconfig], the constants, [tests],
      [testsbyname], [teststorun], [listtests].
    - [Options] (lines 69-122): [script_dir], [usage], the [getopt] call
      and the option loop, producing a [config] record for the module
      globals [server_exe], [server_root], [verbose], [teststorun].
    - [Fixtures] (lines 141-159): [make_synthetic_content], [write_file]
      and the writing of the three fixture files.
    - [HealthCheck] (lines 178-197): [test_server], with the pure
      specification [health_verdict] of one pass.
    - [Supervisor] (lines 124-223): [raise_fd_limit] and [start_server]
      as [server_setup] (136-177) then [server_supervise] (199-223), with
      the retry loop [health_retry] and its specification
      [retry_verdict]; the cleanup [clean_up_testing] and the invariant
      [registered] (every running child has its cleanup registered).
    - [Client] (lines 225-278): [start_wrk], the slash-stripping loop,
      the scenario loop [client_loop] and [client_main].
    - [Main] (module level): [main] (parse, apply options, dispatch on
      the positional argument) and [run_harness], the whole process.

    ** What the theorems show
    - Resource safety: in the server role every run that ends by an exit
      or an uncaught exception leaves no child running ([start_server_no_orphan],
      [harness_server_role_no_orphan]), proved from the invariant
      [registered], which every operation keeps ([Stable keeps_registered]).
    - Refinement: one health-check pass computes [health_verdict]
      ([test_server_refines]); the retry loop computes [retry_verdict]
      and changes nothing but clock and output ([health_retry_refines]).
    - Liveness / functional: a server healthy by the ninth second is
      announced and waited for ([start_server_ready]); the client role
      writes the report with each scenario's result ([client_loadavg40_report],
      [harness_unknown_test_exit]); [start_wrk] returns what [wrk] wrote.
    - Failure isolation: a failing scenario never stops the batch and the
      report only gains keys of known selected scenarios
      ([client_loop_isolation]).
    - Termination, equivalence and round trips: the slash-stripping loop
      ends with no trailing slash and removes only slashes
      ([strip_slashes_spec]) and computes Python's [rstrip("/")]
      ([strip_slashes_rstrip]); [-t a,b,c] gives back its argument;
      [script_dir] of [d/base] is [d].
    - Bounds: the port lies in [20000, 29999]; the fixtures have the
      announced sizes and bytes; the ten-try health check ends within one
      to ten seconds ([health_retry_time_bound]).
    - Well-formed state: every child the harness knows has a pid below
      the next one it hands out, over a whole run ([harness_pids_fresh],
      from [Stable keeps_fresh] instances of every operation).
    - Options: [-l] lists the catalog in order and exits with 0
      ([harness_list_tests]).
    - Fixtures round trip: a server serving the files [prepare_files]
      wrote passes the health check ([fixtures_roundtrip]); a missing
      executable ends the server role before the descriptor limit is
      raised ([start_server_missing_exe]).
    - Findings, each proved as a theorem: success on the tenth attempt is
      reported as failure ([start_server_pass_on_tenth_try]); a wrong
      answer is not retried and exits with 255 ([harness_wrong_answer_exit]);
      SIGTERM leaves the server running ([start_server_sigterm_orphan]);
      the host guard is a substring test ([client_same_host_refused]);
      [ssresults.json] is kept on a parse error and a stale one is
      returned ([start_wrk_parse_failure_keeps_file], [start_wrk_stale_result]);
      [usage()] raises [NameError], so [-h] and bad options exit with 1
      ([harness_help_exit_status], [harness_getopt_error_exit_status]);
      long options hit [assert False] ([process_opts_long_option]); a
      script in [/] gets the working directory as [script_dir]; a run
      with no successful scenario still writes a report with the key
      ["version"] ([harness_unknown_test_exit]).

    ** Bounds and fuel
    The retry loop runs over [py_range 10], the source's [range(10)];
    the clock counts the one-second sleeps, so "healthy by the ninth
    second" is [T <= clock + 9].  [strip_slashes] runs its loop with the
    URL's length as fuel: every iteration removes one character, so the
    fuel never runs out ([strip_slashes_loop_spec]).  Integers are Z:
    the values involved (pids, ports, limits, sizes up to 2.3 MB) are far
    from any machine bound, and Python's integers do not wrap; the exit
    status is the low byte of the [sys.exit] code, as the OS reports it.

    ** Not modelled
    - [getopt.getopt]: a library function; its result (or its error) is
      an input ([e_getopt]).
    - The server under test and [wrk]: external programs; their
      behaviour is an input of [env] ([e_srv_listening], [e_srv_get],
      [e_child_end], [e_child_output]).  [json.load]/[json.dump] are
      inputs too ([e_json_load], [e_json_dump]).
    - The text of the messages: each print site is one constructor of
      [msg] with the values it formats; the layout of the text is not.
    - [os.path.realpath]: the script path is taken as already resolved.
    - Redirections of stdout/stderr and [http_conn.close()], which have
      no effect the harness observes. *)

From stdpp Require Import base gmap strings list.
From Stdlib Require Import ZArith Ascii DecimalString.

(** ** Python string operations used by the harness

    The harness manipulates strings with a handful of [str] methods:
    [s.split(sep)], [sep.join(l)], [s.endswith("/")], [s[:-1]],
    [needle in s], [str(n)] and [s * n].  They are library operations of
    Python, modelled here once, with the lemmas the components share. *)

Declare Scope py_scope.
Delimit Scope py_scope with py.
Open Scope string_scope.

(** [s.split(c)] for a one-character separator: always at least one
    piece, empty pieces kept ("a,,b" gives ["a"; ""; "b"], "" gives [""]). *)
Fixpoint py_split (c : ascii) (s : string) : list string :=
  match s with
  | EmptyString => [""]
  | String.String a t =>
      let r := py_split c t in
      if Ascii.eqb a c then "" :: r
      else match r with
           | p :: ps => String.String a p :: ps
           | [] => [String.String a ""]
           end
  end.

(** [sep.join(l)]. *)
Fixpoint py_join (c : ascii) (l : list string) : string :=
  match l with
  | [] => ""
  | [x] => x
  | x :: xs => x +:+ String.String c (py_join c xs)
  end.

(** [needle in hay] for strings: substring test ("" is in every string). *)
Fixpoint py_contains (needle hay : string) : bool :=
  String.prefix needle hay ||
  match hay with
  | EmptyString => false
  | String.String _ t => py_contains needle t
  end.

(** Last character of a string, if any: [s.endswith(ch)] is
    [py_last s = Some ch]. *)
Fixpoint py_last (s : string) : option ascii :=
  match s with
  | EmptyString => None
  | String.String a EmptyString => Some a
  | String.String _ t => py_last t
  end.

Definition py_endswith_char (ch : ascii) (s : string) : bool :=
  match py_last s with
  | Some a => Ascii.eqb a ch
  | None => false
  end.

(** [s[:-1]]: drop the last character (the empty string stays empty). *)
Definition py_drop_last (s : string) : string :=
  String.substring 0 (String.length s - 1) s.

(** [s.rstrip(c)]: remove every trailing [c]. *)
Fixpoint py_rstrip (c : ascii) (s : string) : string :=
  match s with
  | EmptyString => ""
  | String.String a t =>
      match py_rstrip c t with
      | EmptyString => if Ascii.eqb a c then "" else String.String a ""
      | r => String.String a r
      end
  end.

(** [str(n)] and ["%d" % n] on a Python int. *)
Definition py_str_int (n : Z) : string := NilZero.string_of_int (Z.to_int n).

(** [s * n] on a string and an int: [n] copies, none when [n <= 0]. *)
Fixpoint str_repeat (k : nat) (s : string) : string :=
  match k with
  | O => ""
  | S k' => s +:+ str_repeat k' s
  end.

Definition py_str_mul (s : string) (n : Z) : string := str_repeat (Z.to_nat n) s.

(** ** Shared automation *)

Create HintDb harness discriminated.
Create Rewrite HintDb harness_rw.

(** ** Lemmas on the string operations *)

Lemma py_split_nonempty c s : py_split c s <> [].
Proof.
  destruct s as [|a t]; simpl; [done|].
  destruct (Ascii.eqb a c); [done|]. by destruct (py_split c t).
Qed.

Lemma py_join_cons_char c a p ps :
  py_join c (String.String a p :: ps) = String.String a (py_join c (p :: ps)).
Proof. by destruct ps. Qed.

(** Round trip: joining the pieces of a split with the same separator
    gives back the original string. *)
Lemma py_split_join c s : py_join c (py_split c s) = s.
Proof.
  induction s as [|a t IH]; simpl; [done|].
  destruct (Ascii.eqb_spec a c) as [->|Hne].
  - pose proof (py_split_nonempty c t) as Hne.
    destruct (py_split c t) as [|p ps] eqn:E; [done|].
    change (py_join c ("" :: p :: ps)) with ("" +:+ String.String c (py_join c (p :: ps))).
    by rewrite IH.
  - destruct (py_split c t) as [|p ps] eqn:E.
    + by destruct (py_split_nonempty c t).
    + by rewrite py_join_cons_char, IH.
Qed.

(** stdpp makes [String.append] opaque to [simpl]; these are its two
    defining equations, used by rewriting. *)
Lemma string_app_nil_l (y : string) : "" +:+ y = y.
Proof. reflexivity. Qed.

Lemma string_app_cons a (x y : string) :
  String.String a x +:+ y = String.String a (x +:+ y).
Proof. reflexivity. Qed.

Lemma string_app_assoc (x y z : string) : (x +:+ y) +:+ z = x +:+ (y +:+ z).
Proof. induction x; [done|]. rewrite !string_app_cons. congruence. Qed.

Lemma string_app_nil_r (x : string) : x +:+ "" = x.
Proof. induction x; [done|]. rewrite string_app_cons. congruence. Qed.

Lemma string_app_length (x y : string) :
  String.length (x +:+ y) = String.length x + String.length y.
Proof. induction x; [done|]. rewrite string_app_cons. simpl. lia. Qed.

Lemma prefix_app_self (n b : string) : String.prefix n (n +:+ b) = true.
Proof.
  induction n as [|a t IH]; [by destruct b|].
  rewrite string_app_cons. simpl.
  destruct (Ascii.ascii_dec a a); [done | congruence].
Qed.

Lemma py_contains_prefix (n hay : string) :
  String.prefix n hay = true -> py_contains n hay = true.
Proof. intros H. destruct hay; cbn [py_contains]; by rewrite H. Qed.

Lemma py_contains_app_r (n x y : string) :
  py_contains n y = true -> py_contains n (x +:+ y) = true.
Proof.
  induction x as [|a t IH]; [done|].
  intros H. rewrite string_app_cons. simpl. rewrite (IH H). apply orb_true_r.
Qed.

(** A string contains itself wherever it occurs as a factor. *)
Lemma py_contains_factor (n x y : string) : py_contains n (x +:+ n +:+ y) = true.
Proof. apply py_contains_app_r, py_contains_prefix, prefix_app_self. Qed.

Lemma py_contains_empty (hay : string) : py_contains "" hay = true.
Proof. by destruct hay. Qed.

Lemma str_repeat_length k s :
  String.length (str_repeat k s) = k * String.length s.
Proof. induction k; simpl; [done|]. rewrite string_app_length. lia. Qed.

Lemma py_last_snoc s a : py_last (s +:+ String.String a "") = Some a.
Proof.
  induction s as [|b t IH]; [done|].
  rewrite string_app_cons. simpl. rewrite IH.
  by destruct (t +:+ String.String a "").
Qed.

Lemma py_drop_last_snoc s a : py_drop_last (s +:+ String.String a "") = s.
Proof.
  unfold py_drop_last. rewrite string_app_length. simpl.
  replace (String.length s + 1 - 1) with (String.length s) by lia.
  induction s as [|b t IH]; [done|].
  rewrite string_app_cons. simpl. by rewrite IH.
Qed.

(** Every non-empty string is its [s[:-1]] followed by its last character. *)
Lemma py_last_some s :
  s <> "" -> exists a, py_last s = Some a /\ s = py_drop_last s +:+ String.String a "".
Proof.
  intros Hs. induction s as [|b t IH]; [done|].
  destruct t as [|c u].
  - exists b. done.
  - destruct IH as [a [Ha Heq]]; [done|]. exists a. split; [done|].
    assert (Hd : py_drop_last (String.String b (String.String c u))
                 = String.String b (py_drop_last (String.String c u))).
    { unfold py_drop_last. simpl. by rewrite Nat.sub_0_r. }
    rewrite Hd, string_app_cons. by rewrite <- Heq.
Qed.

#[export] Hint Rewrite py_split_join py_last_snoc py_drop_last_snoc
  string_app_length str_repeat_length string_app_nil_l string_app_cons : harness_rw.
#[export] Hint Resolve py_contains_factor py_contains_empty py_split_nonempty : harness.

(** ** Dictionaries built from lists

    [dict((f(x), x) for x in l)] inserts the pairs left to right, so a
    later key overrides an earlier one. *)
Definition dict_of {K V} `{Countable K} (f : V -> K) (l : list V) : gmap K V :=
  foldl (fun m x => <[f x := x]> m) ∅ l.

Lemma foldl_insert_lookup {K V} `{Countable K} (f : V -> K) (l : list V) (m : gmap K V) k x :
  NoDup (f <$> l) ->
  foldl (fun m x => <[f x := x]> m) m l !! k = Some x <->
  (x ∈ l /\ f x = k) \/ (m !! k = Some x /\ k ∉ f <$> l).
Proof.
  revert m. induction l as [|y l IH]; intros m Hnd; simpl.
  - split; [intros Hk; right; split; [done | set_solver] | ].
    intros [[Hx _] | [Hk _]]; [set_solver | done].
  - inversion Hnd as [|? ? Hy Hnd']; subst.
    rewrite IH by done. rewrite lookup_insert.
    case_decide as Hyk; subst.
    + split.
      * intros [[Hx Hfx] | [Hs Hn]]; [by left; split; [set_solver|] |].
        simplify_eq. left. split; [set_solver | done].
      * intros [[Hx Hfx] | [_ Hn]]; [|set_solver].
        apply elem_of_cons in Hx as [->|Hx]; [by right; split|].
        exfalso. apply Hy. rewrite <- Hfx. by apply list_elem_of_fmap_2.
    + split.
      * intros [[Hx Hfx] | [Hs Hn]]; [left; split; [set_solver | done]|].
        right. split; [done | set_solver].
      * intros [[Hx Hfx] | [Hs Hn]].
        -- apply elem_of_cons in Hx as [->|Hx]; [done|]. by left.
        -- right. split; [done | set_solver].
Qed.

(** With distinct keys, the dictionary maps each key to the one element
    that has it. *)
Lemma dict_of_lookup {K V} `{Countable K} (f : V -> K) (l : list V) k x :
  NoDup (f <$> l) -> dict_of f l !! k = Some x <-> x ∈ l /\ f x = k.
Proof.
  intros Hnd. unfold dict_of. rewrite foldl_insert_lookup by done.
  rewrite lookup_empty. naive_solver.
Qed.

Lemma dict_of_lookup_None {K V} `{Countable K} (f : V -> K) (l : list V) k :
  dict_of f l !! k = None <-> k ∉ f <$> l.
Proof.
  unfold dict_of. cut (forall m : gmap K V,
    foldl (fun m x => <[f x := x]> m) m l !! k = None <-> m !! k = None /\ k ∉ f <$> l).
  { intros ->. rewrite lookup_empty. naive_solver. }
  induction l as [|y l IH]; intros m; simpl; [set_solver|].
  rewrite IH, lookup_insert. case_decide; set_solver.
Qed.

(** ** Splitting at a separator *)

Lemma py_split_app_sep c x y :
  py_split c (x +:+ String.String c y) = (py_split c x ++ py_split c y)%list.
Proof.
  induction x as [|a t IH].
  - rewrite string_app_nil_l. simpl. by rewrite Ascii.eqb_refl.
  - rewrite string_app_cons. simpl. rewrite IH.
    pose proof (py_split_nonempty c t) as Hne.
    destruct (Ascii.eqb a c); [done|].
    by destruct (py_split c t).
Qed.

(** A string without the separator is a single piece. *)
Lemma py_split_no_sep c y :
  (forall i, String.get i y <> Some c) -> py_split c y = [y].
Proof.
  induction y as [|a t IH]; intros Hy; [done|]. simpl.
  destruct (Ascii.eqb_spec a c) as [->|Hne].
  - by destruct (Hy 0).
  - rewrite IH; [done|]. intros i. apply (Hy (S i)).
Qed.

(** ** Repeated strings *)

Lemma string_get_app_l (x y : string) i :
  i < String.length x -> String.get i (x +:+ y) = String.get i x.
Proof. intros H. symmetry. by apply String.append_correct1. Qed.

Lemma string_get_app_r (x y : string) i :
  String.length x <= i -> String.get i (x +:+ y) = String.get (i - String.length x) y.
Proof.
  intros H. rewrite (String.append_correct2 x y (i - String.length x)).
  f_equal. lia.
Qed.

(** The character at index [i] of [k] copies of [s] is the character at
    [i mod |s|] of [s]. *)
Lemma str_repeat_get k s i :
  i < k * String.length s ->
  String.get i (str_repeat k s) = String.get (i mod String.length s) s.
Proof.
  revert i. induction k as [|k IH]; intros i Hi; simpl in *; [lia|].
  destruct (decide (i < String.length s)).
  - rewrite string_get_app_l by done. by rewrite Nat.mod_small.
  - rewrite string_get_app_r, IH by lia.
    f_equal. replace i with ((i - String.length s) + 1 * String.length s) at 2 by lia.
    by rewrite Nat.Div0.mod_add.
Qed.

(** Close a decidable proposition about concrete values by evaluation. *)
Ltac by_eval := first [ apply (bool_decide_unpack _); vm_compute; reflexivity | vm_compute; reflexivity ].

(** [c in s] is false: no index of [s] holds [c]. *)
Lemma py_contains_char_false c s :
  py_contains (String.String c "") s = false -> forall i, String.get i s <> Some c.
Proof.
  induction s as [|a t IH]; intros H i; [by destruct i|].
  cbn [py_contains String.prefix] in H.
  destruct (Ascii.ascii_dec c a) as [->|Hne].
  - by destruct t.
  - apply orb_false_iff in H as [_ H].
    destruct i as [|i]; simpl; [congruence|]. by apply IH.
Qed.

(** A string that ends with [c] is its prefix followed by [c]. *)
Lemma py_endswith_char_snoc c s :
  py_endswith_char c s = true -> s = py_drop_last s +:+ String.String c "".
Proof.
  unfold py_endswith_char. intros He.
  destruct (py_last_some s) as (a & Ha & Hs); [by intros ->; discriminate|].
  rewrite Ha in He. apply Ascii.eqb_eq in He as <-. exact Hs.
Qed.

Lemma py_rstrip_snoc c s : py_rstrip c (s +:+ String.String c "") = py_rstrip c s.
Proof.
  induction s as [|a t IH].
  - simpl. by rewrite Ascii.eqb_refl.
  - rewrite string_app_cons. simpl. by rewrite IH.
Qed.

Lemma py_rstrip_no_end c s : py_endswith_char c s = false -> py_rstrip c s = s.
Proof.
  unfold py_endswith_char.
  induction s as [|a t IH]; intros He; [done|]. simpl.
  destruct t as [|b u].
  - simpl in *. by rewrite He.
  - rewrite IH by exact He. done.
Qed.
