(* ===== verification/PyRuntime.v ===== *)
(** * The Python runtime the harness runs on

    What [server_bench.py] calls in the Python 2 standard library
    ([sys.exit], [print], [time.sleep], [os.access], [os.mkdir], [open],
    [os.unlink], [os.kill], [resource.getrlimit]/[setrlimit],
    [subprocess.Popen]/[wait], [httplib], [json], [atexit]) as a small
    reader-state-exception monad [Py]:
    - the reader part [env] holds what the program observes but never
      changes: host name, pid, the behaviour of the child processes and of
      the server under test (black boxes), and the JSON library;
    - the state part [state] holds the file system, the executables, the
      descriptor limit, the child processes, the atexit handlers, the
      clock and the trace of observable events;
    - a computation ends in [Ok], in [Raise] of a Python exception, or in
      [Halt] when the process is killed by SIGTERM or blocks forever.
    Python's exception hierarchy matters to the harness: [sys.exit] raises
    [SystemExit] and Ctrl-C raises [KeyboardInterrupt], which are not
    subclasses of [Exception]; [except Exception] ([try_except]) lets
    them through while a bare [except:] ([try_bare]) catches them. *)

From stdpp Require Import base gmap strings list.
From Stdlib Require Import ZArith Ascii.
From S2P Require Import Prelude.

Open Scope string_scope.

(** ** Values *)

Inductive exc_kind :=
  | IOError | OSError | ValueError | AssertionError | NameError
  | HTTPException | SocketError.

(** Python exceptions: [SystemExit] and [KeyboardInterrupt] derive from
    [BaseException] only; every [Exc] derives from [Exception]. *)
Inductive exn :=
  | SystemExit (code : Z)
  | KeyboardInterrupt
  | Exc (k : exc_kind).

Definition is_Exception (x : exn) : bool :=
  match x with Exc _ => true | _ => false end.

Inductive halt := HaltSigTerm | HaltBlocked.

Inductive res (A : Type) :=
  | Ok (a : A)
  | Raise (x : exn)
  | Halt (h : halt).
Arguments Ok {A} a.
Arguments Raise {A} x.
Arguments Halt {A} h.

Local Set Warnings "-register-all".

(** JSON values as [json.load] returns them. *)
Inductive json :=
  | JNull
  | JBool (b : bool)
  | JNum (n : Z)
  | JStr (s : string)
  | JArr (l : list json)
  | JObj (l : list (string * json)).

(** Child processes and how a [wait()] on one of them ends. *)
Inductive child_status := Running | Exited (code : Z) | Killed.

Inductive wait_outcome :=
  | ChildExits (code : Z)   (** the child exits by itself *)
  | SigInt                  (** Ctrl-C reaches the harness during the wait *)
  | SigTerm                 (** SIGTERM reaches the harness during the wait *)
  | Forever.                (** the child never exits and no signal comes *)

Record child := {
  c_cmd : list string;
  c_env : list (string * string);
  c_status : child_status;
}.

(** An HTTP reply, or a connection that breaks before a status line. *)
Inductive reply := Reply (status : Z) (body : string) | NoReply.

(** The messages the harness prints, one constructor per [print] site of
    the source, with the values it formats. *)
Inductive msg :=
  | MsgGetoptError
  | MsgTestInfo (name : string) (nconn : Z) (duration path descr : string)
  | MsgRaisingFd
  | MsgFdLimit (soft : Z)
  | MsgPreparing
  | MsgNoExecutable (exe : string)
  | MsgUseDir (root : string)
  | MsgTestingServer
  | MsgBadStatus (status : Z) (url : string)
  | MsgRetrieved (url : string)
  | MsgBadContent (url : string)
  | MsgGaveUp
  | MsgReady (argv0 host : string) (port : Z)
  | MsgRunCommand (cmd : list string)
  | MsgSameHost
  | MsgTestNotFound (name : string)
  | MsgRunningTest (name : string)
  | MsgException (x : exn)
  | MsgWritingResults (fname : string)
  | MsgSubmit (fname : string).

(** Functions registered with [atexit.register]: the harness registers
    only the closure [clean_up_testing] over the server's [Popen] object. *)
Inductive handler := CleanUpTesting (pid : Z).

Inductive event :=
  | EvPrint (m : msg)
  | EvSpawn (pid : Z) (cmd : list string)
  | EvKill (pid : Z)
  | EvSleep
  | EvConnect (host : string) (port : Z)
  | EvRequest (path : string).

(** ** The environment and the state *)

Record env := {
  e_hostname : string;                       (** [socket.gethostname()] *)
  e_pid : Z;                                 (** [os.getpid()] *)
  e_argv0 : string;                          (** [os.path.realpath(sys.argv[0])] *)
  e_file : string;                           (** [os.path.realpath(__file__)] *)
  e_cwd : string;                            (** [os.path.realpath(".")] *)
  e_getopt : option (list (string * string) * list string);
      (** [getopt.getopt(sys.argv[1:], ...)]; [None] is [GetoptError] *)
  e_srv_listening : nat -> bool;             (** server accepts at time t *)
  e_srv_get : nat -> string -> reply;        (** its reply to GET at time t *)
  e_child_end : Z -> list string -> wait_outcome;
  e_child_output : Z -> list string -> option string;
      (** what a child writes to its [JSON_OUTPUT_FILE], if anything *)
  e_json_load : string -> option json;       (** [None]: [ValueError] *)
  e_json_dump : gmap string json -> string;
}.

Record state := {
  s_fs : gmap string string;        (** regular files and their contents *)
  s_dirs : gmap string bool;        (** directories, writable or not *)
  s_exec : gset string;             (** executable files *)
  s_soft : Z;                       (** RLIMIT_NOFILE, soft *)
  s_hard : Z;                       (** RLIMIT_NOFILE, hard *)
  s_children : gmap Z child;
  s_next_pid : Z;
  s_atexit : list handler;          (** most recently registered first *)
  s_clock : nat;                    (** seconds slept *)
  s_trace : list event;             (** observable events, in order *)
}.

Definition set_fs (f : gmap string string) (s : state) : state :=
  {| s_fs := f; s_dirs := s.(s_dirs); s_exec := s.(s_exec); s_soft := s.(s_soft);
     s_hard := s.(s_hard); s_children := s.(s_children); s_next_pid := s.(s_next_pid);
     s_atexit := s.(s_atexit); s_clock := s.(s_clock); s_trace := s.(s_trace) |}.

Definition set_dirs (d : gmap string bool) (s : state) : state :=
  {| s_fs := s.(s_fs); s_dirs := d; s_exec := s.(s_exec); s_soft := s.(s_soft);
     s_hard := s.(s_hard); s_children := s.(s_children); s_next_pid := s.(s_next_pid);
     s_atexit := s.(s_atexit); s_clock := s.(s_clock); s_trace := s.(s_trace) |}.

Definition set_limits (soft hard : Z) (s : state) : state :=
  {| s_fs := s.(s_fs); s_dirs := s.(s_dirs); s_exec := s.(s_exec); s_soft := soft;
     s_hard := hard; s_children := s.(s_children); s_next_pid := s.(s_next_pid);
     s_atexit := s.(s_atexit); s_clock := s.(s_clock); s_trace := s.(s_trace) |}.

Definition set_children (c : gmap Z child) (next : Z) (s : state) : state :=
  {| s_fs := s.(s_fs); s_dirs := s.(s_dirs); s_exec := s.(s_exec); s_soft := s.(s_soft);
     s_hard := s.(s_hard); s_children := c; s_next_pid := next;
     s_atexit := s.(s_atexit); s_clock := s.(s_clock); s_trace := s.(s_trace) |}.

Definition set_atexit (h : list handler) (s : state) : state :=
  {| s_fs := s.(s_fs); s_dirs := s.(s_dirs); s_exec := s.(s_exec); s_soft := s.(s_soft);
     s_hard := s.(s_hard); s_children := s.(s_children); s_next_pid := s.(s_next_pid);
     s_atexit := h; s_clock := s.(s_clock); s_trace := s.(s_trace) |}.

Definition set_clock (t : nat) (s : state) : state :=
  {| s_fs := s.(s_fs); s_dirs := s.(s_dirs); s_exec := s.(s_exec); s_soft := s.(s_soft);
     s_hard := s.(s_hard); s_children := s.(s_children); s_next_pid := s.(s_next_pid);
     s_atexit := s.(s_atexit); s_clock := t; s_trace := s.(s_trace) |}.

Definition add_event (ev : event) (s : state) : state :=
  {| s_fs := s.(s_fs); s_dirs := s.(s_dirs); s_exec := s.(s_exec); s_soft := s.(s_soft);
     s_hard := s.(s_hard); s_children := s.(s_children); s_next_pid := s.(s_next_pid);
     s_atexit := s.(s_atexit); s_clock := s.(s_clock); s_trace := s.(s_trace) ++ [ev] |}.

(** ** The monad *)

Definition Py (A : Type) : Type := env -> state -> res A * state.

Definition ret {A} (a : A) : Py A := fun _ s => (Ok a, s).

Definition bind {A B} (m : Py A) (k : A -> Py B) : Py B :=
  fun e s =>
    match m e s with
    | (Ok a, s') => k a e s'
    | (Raise x, s') => (Raise x, s')
    | (Halt h, s') => (Halt h, s')
    end.

Notation "x <- m ;; k" := (bind m (fun x => k))
  (at level 100, m at next level, right associativity) : py_scope.
Notation "m ;; k" := (bind m (fun _ => k))
  (at level 100, right associativity) : py_scope.

Open Scope py_scope.

Definition ask : Py env := fun e s => (Ok e, s).
Definition gets {A} (f : state -> A) : Py A := fun _ s => (Ok (f s), s).
Definition modify (f : state -> state) : Py unit := fun _ s => (Ok tt, f s).
Definition py_raise {A} (x : exn) : Py A := fun _ s => (Raise x, s).
Definition halt_with {A} (h : halt) : Py A := fun _ s => (Halt h, s).

(** [sys.exit(code)] raises [SystemExit]. *)
Definition sys_exit {A} (code : Z) : Py A := py_raise (SystemExit code).

(** [try: m except Exception: h]. *)
Definition try_except {A} (m : Py A) (h : exn -> Py A) : Py A :=
  fun e s =>
    match m e s with
    | (Raise x, s') => if is_Exception x then h x e s' else (Raise x, s')
    | r => r
    end.

(** [try: m except: h] (bare [except], catches every exception). *)
Definition try_bare {A} (m : Py A) (h : exn -> Py A) : Py A :=
  fun e s =>
    match m e s with
    | (Raise x, s') => h x e s'
    | r => r
    end.

(** [assert b]. *)
Definition py_assert (b : bool) : Py unit :=
  if b then ret tt else py_raise (Exc AssertionError).

(** ** Library calls *)

Definition emit (ev : event) : Py unit := modify (add_event ev).

(** [print ...]. *)
Definition print (m : msg) : Py unit := emit (EvPrint m).

(** [time.sleep(1)]. *)
Definition sleep1 : Py unit :=
  emit EvSleep;; modify (fun s => set_clock (S s.(s_clock)) s).

(** The directory part of a path ("a/b" gives "a", "b" gives "."). *)
Definition dirname (p : string) : string :=
  let d := py_join "/" (removelast (py_split "/" p)) in
  if String.eqb d "" then "." else d.

(** [os.access(p, os.X_OK)], [os.access(d, os.W_OK)], [os.access(p, os.R_OK)]. *)
Definition os_access_X (p : string) : Py bool := gets (fun s => bool_decide (p ∈ s.(s_exec))).
Definition dir_writable (d : string) (s : state) : bool :=
  match s.(s_dirs) !! d with Some w => w | None => false end.
Definition os_access_W (d : string) : Py bool := gets (dir_writable d).
Definition os_access_R (p : string) : Py bool := gets (fun s => bool_decide (is_Some (s.(s_fs) !! p))).

(** [os.mkdir(d)]: [OSError] when the name exists. *)
Definition os_mkdir (d : string) : Py unit :=
  fun _ s =>
    match s.(s_dirs) !! d, s.(s_fs) !! d with
    | None, None => (Ok tt, set_dirs (<[d := true]> s.(s_dirs)) s)
    | _, _ => (Raise (Exc OSError), s)
    end.

(** [open(p, "w").write(c)]: the file is created or truncated when its
    directory is writable, [IOError] otherwise. *)
Definition write_path (p c : string) : Py unit :=
  fun _ s =>
    if dir_writable (dirname p) s then (Ok tt, set_fs (<[p := c]> s.(s_fs)) s)
    else (Raise (Exc IOError), s).

(** [open(p).read()]: [IOError] when there is no such file. *)
Definition read_path (p : string) : Py string :=
  fun _ s =>
    match s.(s_fs) !! p with
    | Some c => (Ok c, s)
    | None => (Raise (Exc IOError), s)
    end.

(** [os.unlink(p)]. *)
Definition os_unlink (p : string) : Py unit :=
  fun _ s =>
    match s.(s_fs) !! p with
    | Some _ => (Ok tt, set_fs (delete p s.(s_fs)) s)
    | None => (Raise (Exc OSError), s)
    end.

(** [resource.getrlimit(resource.RLIMIT_NOFILE)] and [setrlimit]: an
    unprivileged process may set any soft limit up to its hard limit and
    may lower, not raise, its hard limit ([ValueError] otherwise). *)
Definition getrlimit_nofile : Py (Z * Z) := gets (fun s => (s.(s_soft), s.(s_hard))).
Definition setrlimit_nofile (soft hard : Z) : Py unit :=
  fun _ s =>
    if ((soft <=? hard) && (hard <=? s.(s_hard)))%Z then (Ok tt, set_limits soft hard s)
    else (Raise (Exc ValueError), s).

(** [subprocess.Popen(cmd, env=...)]: [OSError] when the executable is
    missing; otherwise a running child with a fresh pid. *)
Definition popen (cmd : list string) (penv : list (string * string)) : Py Z :=
  fun _ s =>
    match cmd with
    | exe :: _ =>
        if bool_decide (exe ∈ s.(s_exec)) then
          let pid := s.(s_next_pid) in
          (Ok pid,
           add_event (EvSpawn pid cmd)
             (set_children (<[pid := {| c_cmd := cmd; c_env := penv; c_status := Running |}]>
                             s.(s_children)) (pid + 1)%Z s))
        else (Raise (Exc OSError), s)
    | [] => (Raise (Exc OSError), s)
    end.

Definition set_status (pid : Z) (c : child) (st : child_status) (s : state) : state :=
  set_children (<[pid := {| c_cmd := c.(c_cmd); c_env := c.(c_env); c_status := st |}]>
                 s.(s_children)) s.(s_next_pid) s.

(** What a child that exits leaves in the file system: the file named by
    its [JSON_OUTPUT_FILE] variable, when it writes one. *)
Definition child_effect (e : env) (pid : Z) (c : child) (s : state) : state :=
  match list_to_map (M := gmap string string) c.(c_env) !! "JSON_OUTPUT_FILE",
        e.(e_child_output) pid c.(c_cmd) with
  | Some path, Some out => set_fs (<[path := out]> s.(s_fs)) s
  | _, _ => s
  end.

(** [p.wait()] on a child: returns its exit code, or a signal interrupts
    the harness, or the call never returns. *)
Definition popen_wait (pid : Z) : Py Z :=
  fun e s =>
    match s.(s_children) !! pid with
    | None => (Raise (Exc OSError), s)
    | Some c =>
        match c.(c_status) with
        | Exited code => (Ok code, s)
        | Killed => (Ok (-9)%Z, s)
        | Running =>
            match e.(e_child_end) pid c.(c_cmd) with
            | ChildExits code => (Ok code, set_status pid c (Exited code) (child_effect e pid c s))
            | SigInt => (Raise KeyboardInterrupt, s)
            | SigTerm => (Halt HaltSigTerm, s)
            | Forever => (Halt HaltBlocked, s)
            end
        end
    end.

(** [os.kill(pid, signal.SIGKILL)]: [OSError] when there is no such
    live process. *)
Definition os_kill (pid : Z) : Py unit :=
  fun _ s =>
    match s.(s_children) !! pid with
    | Some c =>
        match c.(c_status) with
        | Running => (Ok tt, add_event (EvKill pid) (set_status pid c Killed s))
        | _ => (Raise (Exc OSError), s)
        end
    | None => (Raise (Exc OSError), s)
    end.

(** [atexit.register(h)]. *)
Definition atexit_register (h : handler) : Py unit :=
  modify (fun s => set_atexit (h :: s.(s_atexit)) s).

(** [httplib.HTTPConnection(host, port).connect()],
    [conn.request("GET", path)] with [conn.getresponse()] and [read()]. *)
Definition http_connect (host : string) (port : Z) : Py unit :=
  emit (EvConnect host port);;
  fun e s => if e.(e_srv_listening) s.(s_clock) then (Ok tt, s)
             else (Raise (Exc SocketError), s).

Definition http_get (path : string) : Py (Z * string) :=
  emit (EvRequest path);;
  fun e s => match e.(e_srv_get) s.(s_clock) path with
             | Reply st body => (Ok (st, body), s)
             | NoReply => (Raise (Exc HTTPException), s)
             end.

(** [json.load(f)] on the contents of [f]. *)
Definition json_load (c : string) : Py json :=
  fun e s => match e.(e_json_load) c with
             | Some j => (Ok j, s)
             | None => (Raise (Exc ValueError), s)
             end.

(** [json.dump(d, open(p, "w"))]. *)
Definition json_dump_to (p : string) (d : gmap string json) : Py unit :=
  fun e s => write_path p (e.(e_json_dump) d) e s.

(** ** Process exit

    At exit the interpreter runs the atexit handlers, most recent first,
    each in isolation (an exception in a handler is reported and
    ignored); the exit status is 0 on a normal end, the code of
    [SystemExit] taken modulo 256, and 1 for an uncaught exception.
    SIGTERM kills the interpreter before any handler runs. *)
Fixpoint run_atexit (interp : handler -> Py unit) (hs : list handler) : Py unit :=
  match hs with
  | [] => ret tt
  | h :: hs' => try_bare (interp h) (fun _ => ret tt);; run_atexit interp hs'
  end.

Definition exit_status (r : res unit) : Z :=
  match r with
  | Ok _ => 0
  | Raise (SystemExit code) => Z.land code 255
  | Raise _ => 1
  | Halt _ => 0
  end.

Inductive proc_end := ProcExit (status : Z) | ProcSignalled (signo : Z) | ProcBlocked.

Definition run_process (interp : handler -> Py unit) (main : Py unit) (e : env) (s : state)
    : proc_end * state :=
  match main e s with
  | (Halt HaltSigTerm, s') => (ProcSignalled 15, s')
  | (Halt HaltBlocked, s') => (ProcBlocked, s')
  | (r, s') => (ProcExit (exit_status r), snd (run_atexit interp s'.(s_atexit) e s'))
  end.

(** ** Running a computation step by step *)

Section Steps.
Context {A B : Type} (m : Py A) (k : A -> Py B) (e : env) (s s' : state).

Lemma bind_Ok a : m e s = (Ok a, s') -> bind m k e s = k a e s'.
Proof. intros H. unfold bind. by rewrite H. Qed.

Lemma bind_Raise x : m e s = (Raise x, s') -> bind m k e s = (Raise x, s').
Proof. intros H. unfold bind. by rewrite H. Qed.

Lemma bind_Halt h : m e s = (Halt h, s') -> bind m k e s = (Halt h, s').
Proof. intros H. unfold bind. by rewrite H. Qed.

Lemma try_except_Ok (h : exn -> Py A) a :
  m e s = (Ok a, s') -> try_except m h e s = (Ok a, s').
Proof. intros H. unfold try_except. by rewrite H. Qed.

Lemma try_except_caught (h : exn -> Py A) x :
  m e s = (Raise x, s') -> is_Exception x = true -> try_except m h e s = h x e s'.
Proof. intros H Hx. unfold try_except. by rewrite H, Hx. Qed.

Lemma try_except_uncaught (h : exn -> Py A) x :
  m e s = (Raise x, s') -> is_Exception x = false -> try_except m h e s = (Raise x, s').
Proof. intros H Hx. unfold try_except. by rewrite H, Hx. Qed.

Lemma try_except_Halt (h : exn -> Py A) hl :
  m e s = (Halt hl, s') -> try_except m h e s = (Halt hl, s').
Proof. intros H. unfold try_except. by rewrite H. Qed.
End Steps.

(** Unfold one library call of the runtime and simplify. *)
Ltac py_unfold :=
  cbv beta iota delta [bind ret ask gets modify py_raise halt_with sys_exit emit print
                       sleep1 os_access_X os_access_W os_access_R py_assert] in *.

(** A sequence of events appended to the trace, one after the other. *)
Definition add_events (evs : list event) (s : state) : state :=
  foldl (fun s ev => add_event ev s) s evs.

Lemma add_events_trace evs s : (add_events evs s).(s_trace) = (s.(s_trace) ++ evs)%list.
Proof.
  revert s. induction evs as [|ev evs IH]; intros s; simpl; [by rewrite app_nil_r|].
  rewrite IH. simpl. by rewrite <- app_assoc.
Qed.

Lemma add_events_fs evs s : (add_events evs s).(s_fs) = s.(s_fs).
Proof. revert s. induction evs as [|ev evs IH]; intros s; [done|]. simpl. by rewrite IH. Qed.

(** [for x in l: print f(x)] prints one line per element, in order. *)
Lemma print_each_run {X} (f : X -> msg) (l : list X) e s :
  foldr (fun x k => print (f x);; k) (ret tt) l e s =
    (Ok tt, add_events ((fun x => EvPrint (f x)) <$> l) s).
Proof.
  revert s. induction l as [|x l IH]; intros s; [done|]. simpl. apply IH.
Qed.

(** The directory of [root/name], for a name without "/", is [root]. *)
Lemma dirname_child (root name : string) :
  root <> "" -> (forall i, String.get i name <> Some "/"%char) ->
  dirname (root +:+ String.String "/" name) = root.
Proof.
  intros Hr Hn. unfold dirname.
  rewrite py_split_app_sep, (py_split_no_sep _ _ Hn), removelast_last, py_split_join.
  by destruct (String.eqb_spec root "").
Qed.

(** The process-related part of the state: what the fixture and output
    code leaves alone. *)
Definition procs_same (s s' : state) : Prop :=
  s'.(s_exec) = s.(s_exec) /\ s'.(s_children) = s.(s_children) /\
  s'.(s_next_pid) = s.(s_next_pid) /\ s'.(s_atexit) = s.(s_atexit) /\
  s'.(s_clock) = s.(s_clock) /\ s'.(s_soft) = s.(s_soft) /\ s'.(s_hard) = s.(s_hard).

#[export] Instance procs_same_preorder : PreOrder procs_same.
Proof.
  split; [by repeat split |].
  intros s1 s2 s3 (?&?&?&?&?&?&?) (?&?&?&?&?&?&?); repeat split; congruence.
Qed.

Lemma write_path_ok (p c : string) e s :
  dir_writable (dirname p) s = true ->
  write_path p c e s = (Ok tt, set_fs (<[p := c]> s.(s_fs)) s).
Proof. intros H. unfold write_path. by rewrite H. Qed.

Lemma read_path_ok (p c : string) e s :
  s.(s_fs) !! p = Some c -> read_path p e s = (Ok c, s).
Proof. intros H. unfold read_path. by rewrite H. Qed.

#[export] Hint Rewrite write_path_ok read_path_ok using done : harness_rw.

(** ** Frame reasoning: relations a computation preserves

    [Stable R m]: whatever [m] does, on every path (normal end,
    exception, halt), the final state is [R]-related to the initial one.
    The combinators of the monad preserve any preorder, so type class
    resolution proves [Stable] for a composite computation from instances
    for its library calls. *)
Class Stable (R : relation state) {A} (m : Py A) : Prop :=
  stable : forall e s, R s (snd (m e s)).

Section StableCombinators.
Context (R : relation state) `{!PreOrder R}.

#[export] Instance ret_stable {A} (a : A) : Stable R (ret a).
Proof. intros e s. reflexivity. Qed.

#[export] Instance py_raise_stable {A} (x : exn) : Stable R (@py_raise A x).
Proof. intros e s. reflexivity. Qed.

#[export] Instance halt_stable {A} (h : halt) : Stable R (@halt_with A h).
Proof. intros e s. reflexivity. Qed.

#[export] Instance ask_stable : Stable R ask.
Proof. intros e s. reflexivity. Qed.

#[export] Instance gets_stable {A} (f : state -> A) : Stable R (gets f).
Proof. intros e s. reflexivity. Qed.

#[export] Instance bind_stable {A B} (m : Py A) (k : A -> Py B) :
  Stable R m -> (forall a, Stable R (k a)) -> Stable R (bind m k).
Proof.
  intros Hm Hk e s. unfold bind. pose proof (Hm e s) as H1.
  destruct (m e s) as [[a|x|h] s']; simpl in *; [|done|done].
  etrans; [exact H1 | apply Hk].
Qed.

#[export] Instance try_except_stable {A} (m : Py A) (h : exn -> Py A) :
  Stable R m -> (forall x, Stable R (h x)) -> Stable R (try_except m h).
Proof.
  intros Hm Hh e s. unfold try_except. pose proof (Hm e s) as H1.
  destruct (m e s) as [[a|x|hl] s']; simpl in *; [done| |done].
  destruct (is_Exception x); [|done]. etrans; [exact H1 | apply Hh].
Qed.

#[export] Instance try_bare_stable {A} (m : Py A) (h : exn -> Py A) :
  Stable R m -> (forall x, Stable R (h x)) -> Stable R (try_bare m h).
Proof.
  intros Hm Hh e s. unfold try_bare. pose proof (Hm e s) as H1.
  destruct (m e s) as [[a|x|hl] s']; simpl in *; [done| |done].
  etrans; [exact H1 | apply Hh].
Qed.

#[export] Instance if_stable {A} (b : bool) (m1 m2 : Py A) :
  Stable R m1 -> Stable R m2 -> Stable R (if b then m1 else m2).
Proof. by destruct b. Qed.

#[export] Instance prod_match_stable {A B C} (p : A * B) (f : A -> B -> Py C) :
  (forall a b, Stable R (f a b)) -> Stable R (let '(a, b) := p in f a b).
Proof. destruct p. done. Qed.

#[export] Instance py_assert_stable (b : bool) : Stable R (py_assert b).
Proof. unfold py_assert. apply _. Qed.

End StableCombinators.

(** Only output: the run appended events to the trace and changed
    nothing else. *)
Definition only_output (s s' : state) : Prop :=
  s' = {| s_fs := s.(s_fs); s_dirs := s.(s_dirs); s_exec := s.(s_exec);
          s_soft := s.(s_soft); s_hard := s.(s_hard); s_children := s.(s_children);
          s_next_pid := s.(s_next_pid); s_atexit := s.(s_atexit); s_clock := s.(s_clock);
          s_trace := s'.(s_trace) |} /\ s.(s_trace) `prefix_of` s'.(s_trace).

#[export] Instance only_output_preorder : PreOrder only_output.
Proof.
  unfold only_output. split.
  - intros []. split; [done | reflexivity].
  - intros s1 s2 s3 [H12 P12] [H23 P23]. split; [|by etrans].
    rewrite H23, H12. done.
Qed.

#[export] Instance emit_only_output ev : Stable only_output (emit ev).
Proof. intros e s. split; [done|]. simpl. by eexists. Qed.

#[export] Instance print_only_output m : Stable only_output (print m).
Proof. apply emit_only_output. Qed.

#[export] Instance http_connect_only_output h p : Stable only_output (http_connect h p).
Proof.
  unfold http_connect. apply bind_stable; [apply _ | apply _ |].
  intros _ e s. destruct (e_srv_listening e (s_clock s)); reflexivity.
Qed.

#[export] Instance http_get_only_output p : Stable only_output (http_get p).
Proof.
  unfold http_get. apply bind_stable; [apply _ | apply _ |].
  intros _ e s. destruct (e_srv_get e (s_clock s) p); reflexivity.
Qed.

Lemma only_output_clock s s' : only_output s s' -> s'.(s_clock) = s.(s_clock).
Proof. intros [-> _]. done. Qed.

(** Quiet: only the clock and the trace changed. *)
Definition quiet (s s' : state) : Prop :=
  s'.(s_fs) = s.(s_fs) /\ s'.(s_dirs) = s.(s_dirs) /\ s'.(s_exec) = s.(s_exec) /\
  s'.(s_children) = s.(s_children) /\ s'.(s_next_pid) = s.(s_next_pid) /\
  s'.(s_atexit) = s.(s_atexit) /\ s'.(s_soft) = s.(s_soft) /\ s'.(s_hard) = s.(s_hard).

#[export] Instance quiet_preorder : PreOrder quiet.
Proof.
  split; [by repeat split |].
  intros s1 s2 s3 (?&?&?&?&?&?&?&?) (?&?&?&?&?&?&?&?); repeat split; congruence.
Qed.

Lemma only_output_quiet s s' : only_output s s' -> quiet s s'.
Proof. intros [-> _]. by repeat split. Qed.

Lemma stable_weaken (R1 R2 : relation state) {A} (m : Py A) :
  (forall s s', R1 s s' -> R2 s s') -> Stable R1 m -> Stable R2 m.
Proof. intros HR Hm e s. apply HR, Hm. Qed.

#[export] Instance sleep1_quiet : Stable quiet sleep1.
Proof. intros e s. by repeat split. Qed.

Lemma sleep1_run e s :
  exists s', sleep1 e s = (Ok tt, s') /\ s'.(s_clock) = S s.(s_clock) /\ quiet s s'.
Proof. eexists. split; [reflexivity|]. by repeat split. Qed.

(** Run the first step of a [bind] whose outcome [tac] establishes,
    and continue with the rest of the computation. *)
Tactic Notation "py_step" "by" tactic3(tac) :=
  erewrite bind_Ok by tac; cbv beta iota.

(** How a [wait()] on a running child ends for the harness. *)
Definition wait_res (o : wait_outcome) : res Z :=
  match o with
  | ChildExits code => Ok code
  | SigInt => Raise KeyboardInterrupt
  | SigTerm => Halt HaltSigTerm
  | Forever => Halt HaltBlocked
  end.

Lemma popen_wait_running pid c e s :
  s.(s_children) !! pid = Some c -> c.(c_status) = Running ->
  exists s', popen_wait pid e s = (wait_res (e.(e_child_end) pid c.(c_cmd)), s') /\
             s'.(s_trace) = s.(s_trace) /\ s'.(s_atexit) = s.(s_atexit) /\
             match e.(e_child_end) pid c.(c_cmd) with ChildExits _ => True | _ => s' = s end.
Proof.
  intros Hc Hr. unfold popen_wait. rewrite Hc, Hr.
  destruct (e_child_end e pid (c_cmd c)); eexists; (split; [reflexivity|]); [|done..].
  unfold child_effect. by repeat case_match.
Qed.

#[export] Instance child_status_eq_dec : EqDecision child_status.
Proof. solve_decision. Defined.

#[export] Instance handler_eq_dec : EqDecision handler.
Proof. solve_decision. Defined.

(** Children, next pid and atexit handlers unchanged. *)
Definition procs_fixed (s s' : state) : Prop :=
  s'.(s_children) = s.(s_children) /\ s'.(s_next_pid) = s.(s_next_pid) /\
  s'.(s_atexit) = s.(s_atexit).

#[export] Instance procs_fixed_preorder : PreOrder procs_fixed.
Proof. split; [done|]. intros s1 s2 s3 (?&?&?) (?&?&?). repeat split; congruence. Qed.

#[export] Instance emit_procs_fixed ev : Stable procs_fixed (emit ev).
Proof. done. Qed.
#[export] Instance print_procs_fixed m : Stable procs_fixed (print m).
Proof. done. Qed.
#[export] Instance write_path_procs_fixed p c : Stable procs_fixed (write_path p c).
Proof. intros e s. unfold write_path. by case_match. Qed.
#[export] Instance read_path_procs_fixed p : Stable procs_fixed (read_path p).
Proof. intros e s. unfold read_path. by case_match. Qed.
#[export] Instance os_mkdir_procs_fixed d : Stable procs_fixed (os_mkdir d).
Proof. intros e s. unfold os_mkdir. by repeat case_match. Qed.
#[export] Instance setrlimit_procs_fixed a b : Stable procs_fixed (setrlimit_nofile a b).
Proof. intros e s. unfold setrlimit_nofile. by case_match. Qed.
#[export] Instance os_unlink_procs_fixed p : Stable procs_fixed (os_unlink p).
Proof. intros e s. unfold os_unlink. by case_match. Qed.
#[export] Instance json_load_procs_fixed c : Stable procs_fixed (json_load c).
Proof. intros e s. unfold json_load. by case_match. Qed.
#[export] Instance json_dump_to_procs_fixed p d : Stable procs_fixed (json_dump_to p d).
Proof. intros e s. apply write_path_procs_fixed. Qed.

Lemma quiet_procs_fixed s s' : quiet s s' -> procs_fixed s s'.
Proof. intros (_&_&_&?&?&?&_). by repeat split. Qed.

(** ** Computations that fail only with an [Exception]

    [ExcOnly P m]: in every environment satisfying [P], [m] never halts
    and every exception it raises derives from [Exception], so that an
    [except Exception] around it always catches. *)
Definition exc_only {A} (r : res A) : Prop :=
  match r with Ok _ => True | Raise x => is_Exception x = true | Halt _ => False end.

Class ExcOnly (P : env -> Prop) {A} (m : Py A) : Prop :=
  exc_only_run : forall e s, P e -> exc_only (fst (m e s)).

Section ExcOnlyInstances.
Context (P : env -> Prop).

#[export] Instance ret_exc_only {A} (a : A) : ExcOnly P (ret a).
Proof. done. Qed.
#[export] Instance raise_exc_only {A} k : ExcOnly P (@py_raise A (Exc k)).
Proof. done. Qed.
#[export] Instance ask_exc_only : ExcOnly P ask.
Proof. done. Qed.
#[export] Instance gets_exc_only {A} (f : state -> A) : ExcOnly P (gets f).
Proof. done. Qed.
#[export] Instance emit_exc_only ev : ExcOnly P (emit ev).
Proof. done. Qed.
#[export] Instance print_exc_only m : ExcOnly P (print m).
Proof. done. Qed.
#[export] Instance py_assert_exc_only b : ExcOnly P (py_assert b).
Proof. intros e s _. by destruct b. Qed.
#[export] Instance read_path_exc_only p : ExcOnly P (read_path p).
Proof. intros e s _. unfold read_path. by case_match. Qed.
#[export] Instance write_path_exc_only p c : ExcOnly P (write_path p c).
Proof. intros e s _. unfold write_path. by case_match. Qed.
#[export] Instance json_load_exc_only c : ExcOnly P (json_load c).
Proof. intros e s _. unfold json_load. by case_match. Qed.
#[export] Instance json_dump_to_exc_only p d : ExcOnly P (json_dump_to p d).
Proof. intros e s H. apply (write_path_exc_only p _ e s H). Qed.
#[export] Instance os_unlink_exc_only p : ExcOnly P (os_unlink p).
Proof. intros e s _. unfold os_unlink. by case_match. Qed.
#[export] Instance setrlimit_exc_only a b : ExcOnly P (setrlimit_nofile a b).
Proof. intros e s _. unfold setrlimit_nofile. by case_match. Qed.

#[export] Instance bind_exc_only {A B} (m : Py A) (k : A -> Py B) :
  ExcOnly P m -> (forall a, ExcOnly P (k a)) -> ExcOnly P (bind m k).
Proof.
  intros Hm Hk e s He. specialize (Hm e s He). unfold bind.
  destruct (m e s) as [[a|x|h] s']; [by apply Hk | done | done].
Qed.

#[export] Instance try_except_exc_only {A} (m : Py A) (h : exn -> Py A) :
  ExcOnly P m -> (forall x, ExcOnly P (h x)) -> ExcOnly P (try_except m h).
Proof.
  intros Hm Hh e s He. specialize (Hm e s He). unfold try_except.
  destruct (m e s) as [[a|x|hl] s']; simpl in *; [done| |done].
  rewrite Hm. by apply Hh.
Qed.

#[export] Instance if_exc_only {A} (b : bool) (m1 m2 : Py A) :
  ExcOnly P m1 -> ExcOnly P m2 -> ExcOnly P (if b then m1 else m2).
Proof. by destruct b. Qed.
End ExcOnlyInstances.

(** Under [except Exception], a computation that fails only with an
    [Exception] always returns. *)
Lemma try_except_returns (P : env -> Prop) {A} (m : Py A) (h : exn -> Py A) e s :
  ExcOnly P m -> (forall x s', exists a s'', h x e s' = (Ok a, s'')) -> P e ->
  exists a s', try_except m h e s = (Ok a, s').
Proof.
  intros Hm Hh He. specialize (Hm e s He). unfold try_except.
  destruct (m e s) as [[a|x|hl] s']; simpl in *; [by eauto| |done].
  rewrite Hm. apply Hh.
Qed.

(** Directories unchanged: only [os.mkdir] creates one. *)
Definition dirs_fixed (s s' : state) : Prop := s'.(s_dirs) = s.(s_dirs).

#[export] Instance dirs_fixed_preorder : PreOrder dirs_fixed.
Proof. unfold dirs_fixed. split; [done|]. intros ? ? ? -> ->. done. Qed.

#[export] Instance emit_dirs_fixed ev : Stable dirs_fixed (emit ev).
Proof. done. Qed.
#[export] Instance print_dirs_fixed m : Stable dirs_fixed (print m).
Proof. done. Qed.
#[export] Instance write_path_dirs_fixed p c : Stable dirs_fixed (write_path p c).
Proof. intros e s. unfold write_path. by case_match. Qed.
#[export] Instance read_path_dirs_fixed p : Stable dirs_fixed (read_path p).
Proof. intros e s. unfold read_path. by case_match. Qed.
#[export] Instance os_unlink_dirs_fixed p : Stable dirs_fixed (os_unlink p).
Proof. intros e s. unfold os_unlink. by case_match. Qed.
#[export] Instance json_load_dirs_fixed c : Stable dirs_fixed (json_load c).
Proof. intros e s. unfold json_load. by case_match. Qed.
#[export] Instance setrlimit_dirs_fixed a b : Stable dirs_fixed (setrlimit_nofile a b).
Proof. intros e s. unfold setrlimit_nofile. by case_match. Qed.
#[export] Instance popen_dirs_fixed cmd penv : Stable dirs_fixed (popen cmd penv).
Proof. intros e s. unfold popen. by repeat case_match. Qed.
#[export] Instance popen_wait_dirs_fixed pid : Stable dirs_fixed (popen_wait pid).
Proof. intros e s. unfold popen_wait, set_status, child_effect. by repeat case_match. Qed.

Lemma str_repeat_snoc k (s : string) : str_repeat k s +:+ s = s +:+ str_repeat k s.
Proof.
  induction k as [|k IH]; simpl; [by rewrite string_app_nil_r|].
  by rewrite string_app_assoc, IH.
Qed.

(** ** Well-formed process table

    Every child the harness knows has a pid below [s_next_pid], so the
    pid [Popen] hands out next is not one of them and a launch never
    overwrites the record of an earlier child. *)
Definition pids_fresh (s : state) : Prop :=
  map_Forall (fun pid _ => (pid < s.(s_next_pid))%Z) s.(s_children).

#[export] Instance pids_fresh_dec s : Decision (pids_fresh s).
Proof. unfold pids_fresh. apply _. Defined.

Lemma pids_fresh_next s : pids_fresh s -> s.(s_children) !! s.(s_next_pid) = None.
Proof. intros H. apply eq_None_not_Some. intros [c Hc]. specialize (H _ _ Hc). simpl in H. lia. Qed.

Definition keeps_fresh (s s' : state) : Prop := pids_fresh s -> pids_fresh s'.

#[export] Instance keeps_fresh_preorder : PreOrder keeps_fresh.
Proof. split; [by intros s H | intros s1 s2 s3 H12 H23 H; auto]. Qed.

Lemma procs_fixed_fresh s s' : procs_fixed s s' -> keeps_fresh s s'.
Proof. intros (Hc & Hn & _) H. unfold pids_fresh. by rewrite Hc, Hn. Qed.

#[export] Instance procs_fixed_fresh_stable {A} (m : Py A) :
  Stable procs_fixed m -> Stable keeps_fresh m | 20.
Proof. apply stable_weaken, procs_fixed_fresh. Qed.

(** Changing the status of a known child keeps the table well formed. *)
Lemma set_status_fresh pid c st s :
  s.(s_children) !! pid = Some c -> pids_fresh s -> pids_fresh (set_status pid c st s).
Proof.
  intros Hc H. unfold pids_fresh, set_status. simpl.
  apply map_Forall_insert_2; [exact (H _ _ Hc) | exact H].
Qed.

Lemma child_effect_procs e pid c s :
  (child_effect e pid c s).(s_children) = s.(s_children) /\
  (child_effect e pid c s).(s_next_pid) = s.(s_next_pid).
Proof. unfold child_effect. by repeat case_match. Qed.

#[export] Instance popen_fresh cmd penv : Stable keeps_fresh (popen cmd penv).
Proof.
  intros e s H. unfold popen. destruct cmd as [|exe rest]; [done|]. case_decide; [|done].
  unfold pids_fresh. simpl. apply map_Forall_insert_2; [lia|].
  intros pid c Hc. specialize (H _ _ Hc). simpl in H. lia.
Qed.

#[export] Instance popen_wait_fresh pid : Stable keeps_fresh (popen_wait pid).
Proof.
  intros e s H. unfold popen_wait.
  destruct (s_children s !! pid) as [c|] eqn:Hc; [|done].
  destruct (c_status c); [|done|done].
  destruct (e_child_end e pid (c_cmd c)); [|done..].
  apply set_status_fresh.
  - by rewrite (proj1 (child_effect_procs e pid c s)).
  - unfold pids_fresh. by rewrite (proj1 (child_effect_procs e pid c s)),
      (proj2 (child_effect_procs e pid c s)).
Qed.

#[export] Instance os_kill_fresh pid : Stable keeps_fresh (os_kill pid).
Proof.
  intros e s H. unfold os_kill.
  destruct (s_children s !! pid) as [c|] eqn:Hc; [|done].
  destruct (c_status c); [|done|done]. by apply set_status_fresh.
Qed.

#[export] Instance atexit_register_fresh h : Stable keeps_fresh (atexit_register h).
Proof. by intros e s H. Qed.

#[export] Instance run_atexit_stable (R : relation state) `{!PreOrder R} interp hs :
  (forall h, Stable R (interp h)) -> Stable R (run_atexit interp hs).
Proof. intros Hh. induction hs as [|h hs IH]; simpl; apply _. Qed.

(** A property of the state that the program and every atexit handler
    keep holds when the process has ended. *)
Lemma run_process_stable (R : relation state) `{!PreOrder R} interp main e s :
  (forall h, Stable R (interp h)) -> Stable R main -> R s (snd (run_process interp main e s)).
Proof.
  intros Hh Hm. unfold run_process. pose proof (stable (R := R) (m := main) e s) as H1.
  destruct (main e s) as [r s1]. simpl in H1.
  assert (R s (snd (run_atexit interp (s_atexit s1) e s1))).
  { etrans; [exact H1 | exact (run_atexit_stable R interp (s_atexit s1) Hh e s1)]. }
  by destruct r as [|x|[]].
Qed.

(** ** Example machines

    Concrete environments and states on which the theorems' hypotheses
    are checked by evaluation: the script lives in [/opt/bench], the
    host is [hickory], the harness has pid 4242. *)
Definition demo_env (getopt : option (list (string * string) * list string))
    (listening : nat -> bool) (get : nat -> string -> reply)
    (cend : Z -> list string -> wait_outcome) (cout : Z -> list string -> option string)
    (load : string -> option json) : env :=
  {| e_hostname := "hickory"; e_pid := 4242; e_argv0 := "/opt/bench/server_bench.py";
     e_file := "/opt/bench/server_bench.py"; e_cwd := "/home/student";
     e_getopt := getopt; e_srv_listening := listening; e_srv_get := get;
     e_child_end := cend; e_child_output := cout; e_json_load := load;
     e_json_dump := fun m => py_str_int (Z.of_nat (size m)) |}.

Definition demo_state (fs : list (string * string)) (dirs : list (string * bool))
    (exec : list string) : state :=
  {| s_fs := list_to_map fs; s_dirs := list_to_map dirs; s_exec := list_to_set exec;
     s_soft := 1024; s_hard := 4096; s_children := ∅; s_next_pid := 100; s_atexit := [];
     s_clock := 0; s_trace := [] |}.
