(* ===== verification/Catalog.v ===== *)
(** * Test catalog ([server_bench.py], lines 13-66)

    The [runconfig] named tuple, the constants [VERSION], [server_exe],
    [server_root] and [wrk_exe], the ordered list [tests], the dictionary
    [testsbyname], the default selection [teststorun] and [listtests].
    Theorems: the names of the catalog are distinct, [testsbyname] finds
    exactly the catalog's entries, the default selection is the catalog
    order. *)

From stdpp Require Import base gmap strings list.
From Stdlib Require Import ZArith Ascii.
From S2P Require Import Prelude PyRuntime.

Open Scope string_scope.
Open Scope py_scope.

Module Catalog.

(** [runconfig = namedtuple('runconfig', [...])]. *)
Record runconfig := {
  name : string;
  nthreads : Z;
  nconnections : Z;
  description : string;
  path : string;
  duration : string;
}.

Definition VERSION : string := "1.0".
Definition server_exe_default : string := "./sysstatd".
Definition server_root_default : string := "_serverroot_".
Definition wrk_exe : string := "/home/courses/cs3214/bin/wrk".

Definition loadavg40 : runconfig :=
  {| name := "loadavg40"; nthreads := 20; nconnections := 40; duration := "10s";
     path := "/loadavg";
     description := "
    Can your server handle 40 parallel connections request /loadavg?
    " |}.

Definition loadavg500 : runconfig :=
  {| name := "loadavg500"; nthreads := 20; nconnections := 500; duration := "10s";
     path := "/loadavg";
     description := "
    Using 500 connections, each of which is repeatedly requesting /loadavg (~80bytes in
    HTTP body).  We believe this should be enough to make the server CPU bound.
    " |}.

Definition loadavg10k : runconfig :=
  {| name := "loadavg10k"; nthreads := 20; nconnections := 10000; duration := "10s";
     path := "/loadavg";
     description := "
    Handling 10k simultaneous connections has been a target of scalability since 1999:
    http://www.kegel.com/c10k.html
    Can your server handle it?
    " |}.

Definition wwwcsvt100 : runconfig :=
  {| name := "wwwcsvt100"; nthreads := 20; nconnections := 100; duration := "10s";
     path := "/files/www.cs.vt.edu-20160222.html";
     description := "
    The home page of the CS Department, as of 4/22/2016, is about 23KB large (not counting embedded objects).
    If 100 clients accessed it simultaneously, how much throughput could they expect?
    " |}.

Definition doom100 : runconfig :=
  {| name := "doom100"; nthreads := 20; nconnections := 40; duration := "10s";
     path := "/files/large";
     description := "
    According to https://mobiforge.com/research-analysis/the-web-is-doom the combined size of all
    objects that make an average web page is 2,250kBytes as of April 2016. If these were transferred
    all in a single objects, how much throughput would you get?
    This should max out the 10Gbps Ethernet links, even with only 40 connections.
    " |}.

(** [tests]: run in this order. *)
Definition tests : list runconfig := [loadavg40; loadavg500; loadavg10k; wwwcsvt100; doom100].

(** [testsbyname = dict((c.name, c) for c in tests)]. *)
Definition testsbyname : gmap string runconfig := dict_of name tests.

(** [teststorun = map(lambda t : t.name, tests)]. *)
Definition teststorun_default : list string := map name tests.

(** [listtests()]. *)
Definition listtests : Py unit :=
  foldr (fun t k => print (MsgTestInfo t.(name) t.(nconnections) t.(duration) t.(path)
                                       t.(description));; k) (ret tt) tests.

(** ** Properties *)

(** What [listtests()] prints: one entry per test, in catalog order. *)
Definition test_listing : list event :=
  (fun t => EvPrint (MsgTestInfo t.(name) t.(nconnections) t.(duration) t.(path)
                                 t.(description))) <$> tests.

Lemma listtests_run e s : listtests e s = (Ok tt, add_events test_listing s).
Proof. apply (print_each_run (fun t => MsgTestInfo _ _ _ _ _)). Qed.

Lemma tests_names_NoDup : NoDup (name <$> tests).
Proof. apply (bool_decide_unpack _). by vm_compute. Qed.

(** C18: the catalog's names are pairwise distinct and [testsbyname]
    returns, for a name, exactly the catalog entry of that name; a name
    outside the catalog finds nothing. *)
Theorem testsbyname_spec (n : string) (t : runconfig) :
  testsbyname !! n = Some t <-> t ∈ tests /\ t.(name) = n.
Proof. apply dict_of_lookup, tests_names_NoDup. Qed.

Lemma testsbyname_None (n : string) : testsbyname !! n = None <-> n ∉ name <$> tests.
Proof. apply dict_of_lookup_None. Qed.

Lemma teststorun_default_names : teststorun_default = name <$> tests.
Proof. reflexivity. Qed.

(** ** Witnesses *)

Lemma testsbyname_spec_witness :
  (doom100 ∈ tests /\ doom100.(name) = "doom100") /\ testsbyname !! "doom100" = Some doom100.
Proof.
  assert (H : doom100 ∈ tests /\ doom100.(name) = "doom100")
    by (split; [unfold tests; repeat constructor | reflexivity]).
  split; [exact H|]. exact (proj2 (testsbyname_spec "doom100" doom100) H).
Defined.

End Catalog.
