(* ===== verification/Options.v ===== *)
(** * Command line and module-level setup ([server_bench.py], lines 69-122)

    [script_dir] (lines 69-73), [usage] (75-94), the [getopt] call
    (96-101) and the loop over the parsed options (103-122), which builds
    the configuration that the rest of the program reads from module
    globals: [server_exe], [server_root], [verbose], [teststorun].
    [getopt] itself is a library function: its result is an input of the
    model ([e_getopt]). *)

From stdpp Require Import base gmap strings list.
From Stdlib Require Import ZArith Ascii.
From S2P Require Import Prelude PyRuntime Catalog.

Open Scope string_scope.
Open Scope py_scope.

Module Options.
Import Catalog.

(** The module globals the options set. *)
Record config := {
  cfg_server_exe : string;
  cfg_server_root : string;
  cfg_verbose : bool;
  cfg_teststorun : list string;
}.

Definition default_config : config :=
  {| cfg_server_exe := server_exe_default; cfg_server_root := server_root_default;
     cfg_verbose := false; cfg_teststorun := teststorun_default |}.

(** Lines 69-73: the directory of the script.  [script_dir] is computed
    from [os.path.realpath(__file__)]; when it comes out empty it is
    replaced by ".", and [os.path.realpath(".")] is the working
    directory.  A non-empty prefix of a real path is already real, so the
    final [realpath] leaves it unchanged. *)
Definition script_dir_of (file cwd : string) : string :=
  let d := py_join "/" (removelast (py_split "/" file)) in
  if String.eqb d "" then cwd else d.

Definition get_script_dir : Py string :=
  e <- ask;; ret (script_dir_of e.(e_file) e.(e_cwd)).

(** [usage()]: the operands of [%] include the global [config], which the
    module never defines, so evaluating them raises [NameError] before
    anything is printed. *)
Definition usage : Py unit := py_raise (Exc NameError).

(** Lines 96-101: [getopt]; on [GetoptError] print it, call [usage()],
    [sys.exit(2)]. *)
Definition parse_args : Py (list (string * string) * list string) :=
  e <- ask;;
  match e.(e_getopt) with
  | Some r => ret r
  | None => print MsgGetoptError;; usage;; sys_exit 2
  end.

(** Lines 106-122: one iteration of [for opt, arg in opts]. *)
Definition process_opt (c : config) (opt arg : string) : Py config :=
  (if String.eqb opt "-h" then usage;; sys_exit 0 else ret tt);;
  if String.eqb opt "-v" then
    ret {| cfg_server_exe := c.(cfg_server_exe); cfg_server_root := c.(cfg_server_root);
           cfg_verbose := true; cfg_teststorun := c.(cfg_teststorun) |}
  else if String.eqb opt "-s" then
    ret {| cfg_server_exe := arg; cfg_server_root := c.(cfg_server_root);
           cfg_verbose := c.(cfg_verbose); cfg_teststorun := c.(cfg_teststorun) |}
  else if String.eqb opt "-R" then
    ret {| cfg_server_exe := c.(cfg_server_exe); cfg_server_root := arg;
           cfg_verbose := c.(cfg_verbose); cfg_teststorun := c.(cfg_teststorun) |}
  else if String.eqb opt "-l" then
    listtests;; sys_exit 0
  else if String.eqb opt "-t" then
    ret {| cfg_server_exe := c.(cfg_server_exe); cfg_server_root := c.(cfg_server_root);
           cfg_verbose := c.(cfg_verbose); cfg_teststorun := py_split "," arg |}
  else
    py_assert false;; ret c.

Fixpoint process_opts (c : config) (opts : list (string * string)) : Py config :=
  match opts with
  | [] => ret c
  | (opt, arg) :: rest => c' <- process_opt c opt arg;; process_opts c' rest
  end.

(** ** Properties *)

(** The help option never shows the help text: [usage()] raises
    [NameError] (it formats the undefined global [config]), so [-h]
    ends in an uncaught exception instead of [sys.exit(0)]. *)
Lemma process_opts_help (c : config) (arg : string) rest e s :
  process_opts c (("-h", arg) :: rest) e s = (Raise (Exc NameError), s).
Proof. reflexivity. Qed.

(** [-l] lists the catalog and exits with 0, whatever follows it. *)
Lemma process_opts_list (c : config) (arg : string) rest e s :
  process_opts c (("-l", arg) :: rest) e s = (Raise (SystemExit 0), add_events test_listing s).
Proof.
  cbn [process_opts]. unfold process_opt.
  cbv beta iota delta [String.eqb bind ret sys_exit py_raise] in *. cbn -[listtests].
  by rewrite listtests_run.
Qed.

(** A [getopt] error prints it and then fails in [usage()] with
    [NameError], so the [sys.exit(2)] of line 101 is never reached. *)
Lemma parse_args_getopt_error e s :
  e.(e_getopt) = None ->
  parse_args e s = (Raise (Exc NameError), add_event (EvPrint MsgGetoptError) s).
Proof. intros He. unfold parse_args, ask, bind. simpl. by rewrite He. Qed.

(** C26 (error): the long options [--help] and [--verbose] that
    [getopt] accepts reach the [else] branch and fail its
    [assert False]. *)
Theorem process_opts_long_option (c : config) (opt arg : string) rest e s :
  opt = "--help" \/ opt = "--verbose" ->
  process_opts c ((opt, arg) :: rest) e s = (Raise (Exc AssertionError), s).
Proof. by intros [-> | ->]. Qed.


(** C24 (round trip): [script_dir] of a script [d/base] is [d]:
    splitting the path at "/" and joining all pieces but the last gives
    back its directory. *)
Theorem script_dir_of_dir (d base cwd : string) :
  d <> "" -> py_contains "/" base = false ->
  script_dir_of (d +:+ String.String "/" base) cwd = d.
Proof.
  intros Hd Hc. pose proof (py_contains_char_false _ _ Hc) as Hb. clear Hc. unfold script_dir_of.
  rewrite py_split_app_sep, (py_split_no_sep _ _ Hb), removelast_last, py_split_join.
  destruct (String.eqb_spec d ""); [done | done].
Qed.

(** C25 (code bug): a script in the root directory, [/base], gets the
    working directory as [script_dir], not "/": its resources are looked
    up relative to wherever the harness was started. *)
Theorem script_dir_of_root (base cwd : string) :
  py_contains "/" base = false ->
  script_dir_of (String.String "/" base) cwd = cwd.
Proof.
  intros Hc. pose proof (py_contains_char_false _ _ Hc) as Hb. clear Hc. unfold script_dir_of. simpl.
  by rewrite (py_split_no_sep _ _ Hb).
Qed.

(** ** Witnesses *)

Definition demo_opts_env : env :=
  demo_env None (fun _ => false) (fun _ _ => NoReply) (fun _ _ => Forever)
    (fun _ _ => None) (fun _ => None).

Lemma process_opts_long_option_witness :
  ("--help" = "--help" \/ "--help" = "--verbose") /\
  process_opts default_config [("--help", "")] demo_opts_env (demo_state [] [] []) =
    (Raise (Exc AssertionError), demo_state [] [] []).
Proof. split; [by left | apply process_opts_long_option; by left]. Defined.

Lemma script_dir_of_dir_witness :
  "/opt/bench" <> "" /\ py_contains "/" "server_bench.py" = false /\
  script_dir_of ("/opt/bench" +:+ String.String "/" "server_bench.py") "/home/student" = "/opt/bench".
Proof.
  split; [discriminate|]. split; [reflexivity|].
  apply script_dir_of_dir; [discriminate | reflexivity].
Defined.

Lemma script_dir_of_root_witness :
  py_contains "/" "server_bench.py" = false /\
  script_dir_of (String.String "/" "server_bench.py") "/home/student" = "/home/student".
Proof. split; [reflexivity | apply script_dir_of_root; reflexivity]. Defined.

End Options.
