(* ===== verification/Fixtures.v ===== *)
(** * Fixture preparer ([server_bench.py], lines 141-159 of [start_server])

    The nested helpers [make_synthetic_content] and [write_file] and the
    block of [start_server] that creates the server root and writes the
    three files the server under test must serve: [small] (1 KiB),
    [large] (2250 KiB) and a copy of the department home page read from
    [script_dir/res/].  Theorems: the synthetic content has the announced
    size and the announced bytes; preparing the files stores exactly
    these contents under the root. *)

From stdpp Require Import base gmap strings list.
From Stdlib Require Import ZArith Ascii.
From S2P Require Import Prelude PyRuntime Catalog Options.

Open Scope string_scope.
Open Scope py_scope.

Module Fixtures.
Import Options.

Definition hex_block : string := "0123456789ABCDEF".

(** [make_synthetic_content(sz)]: ['0123456789ABCDEF' * (sz/16)] with
    Python 2's floor division. *)
Definition make_synthetic_content (sz : Z) : string := py_str_mul hex_block (sz / 16).

(** The contents are large (2.3 MB for [large]): never unfold them by
    evaluation. *)
Arguments make_synthetic_content : simpl never.

(** [write_file(name, content)]: [open("%s/%s" % (root_dir, name), "w")]. *)
Definition write_file (root_dir name content : string) : Py unit :=
  write_path (root_dir +:+ "/" +:+ name) content.

Definition small_size : Z := 1024.
Definition large_size : Z := 2250 * 1024.
Definition www_name : string := "www.cs.vt.edu-20160222.html".

Definition www_source (sd : string) : string := sd +:+ "/res/" +:+ www_name.

(** Lines 143-144: [if not os.access(root_dir, os.W_OK): os.mkdir(root_dir)]. *)
Definition ensure_root (root_dir : string) : Py unit :=
  w <- os_access_W root_dir;;
  if w then ret tt else os_mkdir root_dir.

(** Lines 142-159: create the root if it is not writable, write the
    three files, return their contents. *)
Definition prepare_files (root_dir : string) : Py (string * string * string) :=
  print (MsgUseDir root_dir);;
  ensure_root root_dir;;
  let sfilecontent := make_synthetic_content small_size in
  write_file root_dir "small" sfilecontent;;
  let lfilecontent := make_synthetic_content large_size in
  write_file root_dir "large" lfilecontent;;
  sd <- get_script_dir;;
  wwwcscont <- read_path (www_source sd);;
  write_file root_dir www_name wwwcscont;;
  ret (sfilecontent, lfilecontent, wwwcscont).

(** ** Properties *)

Section Fixtures_props.

Lemma make_synthetic_content_length_get (sz : Z) :
  String.length (make_synthetic_content sz) = 16 * Z.to_nat (sz / 16) /\
  forall i, i < String.length (make_synthetic_content sz) ->
    String.get i (make_synthetic_content sz) = String.get (i mod 16) hex_block.
Proof.
  unfold make_synthetic_content, py_str_mul.
  rewrite str_repeat_length. split; [simpl; lia|].
  intros i Hi. by rewrite str_repeat_get.
Qed.

Lemma make_synthetic_content_length_Z (sz : Z) :
  (0 <= sz)%Z ->
  Z.of_nat (String.length (make_synthetic_content sz)) = (16 * (sz / 16))%Z.
Proof.
  intros Hsz. rewrite (proj1 (make_synthetic_content_length_get _)).
  rewrite Nat2Z.inj_mul, Z2Nat.id; [done|]. apply Z.div_pos; lia.
Qed.

(** C20: [make_synthetic_content sz] holds [16 * (sz / 16)] bytes (none
    when [sz < 16], exactly [sz] when 16 divides it, as for the 1 KiB and
    2250 KiB fixtures) and its byte [i] is the hex digit of [i mod 16]. *)
Theorem make_synthetic_content_spec (sz : Z) :
  String.length (make_synthetic_content sz) = 16 * Z.to_nat (sz / 16) /\
  ((16 | sz)%Z -> (0 <= sz)%Z -> Z.of_nat (String.length (make_synthetic_content sz)) = sz) /\
  forall i, i < String.length (make_synthetic_content sz) ->
    String.get i (make_synthetic_content sz) = String.get (i mod 16) hex_block.
Proof.
  destruct (make_synthetic_content_length_get sz) as [Hl Hg].
  split; [done|]. split; [|done].
  intros [q ->] Hq. rewrite Hl, Nat2Z.inj_mul, Z.div_mul by lia.
  rewrite Z2Nat.id by lia. lia.
Qed.

(** The small fixture is 1024 bytes, the large one 2250 KiB. *)
Lemma fixture_sizes :
  Z.of_nat (String.length (make_synthetic_content small_size)) = small_size /\
  Z.of_nat (String.length (make_synthetic_content large_size)) = large_size.
Proof.
  rewrite !make_synthetic_content_length_Z by (unfold small_size, large_size; lia).
  split; reflexivity.
Qed.

Lemma fixture_name_no_slash (n : string) :
  n ∈ ["small"; "large"; www_name] -> forall i, String.get i n <> Some "/"%char.
Proof.
  intros Hn i. apply elem_of_cons in Hn as [->|Hn]; [|apply elem_of_cons in Hn as [->|Hn];
    [|apply elem_of_cons in Hn as [->|Hn]; [|set_solver]]];
  (do 30 (destruct i as [|i]; [done|])); by destruct i.
Qed.

(** [ensure_root] leaves a writable root and changes nothing else the
    harness observes. *)
Lemma ensure_root_ok root_dir e s :
  (dir_writable root_dir s = true \/ (s.(s_dirs) !! root_dir = None /\ s.(s_fs) !! root_dir = None)) ->
  exists s', ensure_root root_dir e s = (Ok tt, s') /\ dir_writable root_dir s' = true /\
             s'.(s_fs) = s.(s_fs) /\ procs_same s s' /\ s'.(s_trace) = s.(s_trace).
Proof.
  unfold ensure_root, os_access_W, gets, bind.
  destruct (dir_writable root_dir s) eqn:Hw; intros Hc.
  - eexists. split; [reflexivity|]. by repeat split.
  - destruct Hc as [Hc | [Hd Hf]]; [done|].
    unfold os_mkdir. rewrite Hd, Hf. eexists. split; [reflexivity|].
    unfold dir_writable. simpl. rewrite lookup_insert_eq. by repeat split.
Qed.

(** Where the three fixtures are written. *)
Definition fixture_path (root_dir name : string) : string := root_dir +:+ "/" +:+ name.

Lemma fixture_paths_distinct root (n1 n2 : string) :
  n1 <> n2 -> fixture_path root n1 <> fixture_path root n2.
Proof. unfold fixture_path. intros Hn Heq. by apply (inj (String.app root)), (inj (String.app "/")) in Heq. Qed.

Lemma fixture_dir_writable root name s :
  root <> "" -> name ∈ ["small"; "large"; www_name] ->
  dir_writable root s = true ->
  dir_writable (dirname (root +:+ "/" +:+ name)) s = true.
Proof.
  intros Hr Hn Hw. rewrite (string_app_cons "/" "" name), string_app_nil_l.
  by rewrite dirname_child by (done || by apply fixture_name_no_slash).
Qed.

(** Preparing the fixtures in a writable (or absent) root stores the two
    synthetic files and the copy of the home page, and touches nothing
    that concerns processes. *)
Lemma prepare_files_ok root_dir w e s :
  root_dir <> "" ->
  (dir_writable root_dir s = true \/ (s.(s_dirs) !! root_dir = None /\ s.(s_fs) !! root_dir = None)) ->
  www_source (script_dir_of e.(e_file) e.(e_cwd)) <> fixture_path root_dir "small" ->
  www_source (script_dir_of e.(e_file) e.(e_cwd)) <> fixture_path root_dir "large" ->
  s.(s_fs) !! www_source (script_dir_of e.(e_file) e.(e_cwd)) = Some w ->
  exists s', prepare_files root_dir e s =
    (Ok (make_synthetic_content small_size, make_synthetic_content large_size, w), s') /\
    procs_same s s' /\
    s'.(s_trace) = (s.(s_trace) ++ [EvPrint (MsgUseDir root_dir)])%list /\
    s'.(s_fs) !! fixture_path root_dir "small" = Some (make_synthetic_content small_size) /\
    s'.(s_fs) !! fixture_path root_dir "large" = Some (make_synthetic_content large_size) /\
    s'.(s_fs) !! fixture_path root_dir www_name = Some w.
Proof.
  intros Hr Hw Hs Hl Hwww.
  destruct (ensure_root_ok root_dir e (add_event (EvPrint (MsgUseDir root_dir)) s))
    as (s1 & E1 & Hw1 & Hfs1 & Hp1 & Ht1); [done|].
  unfold prepare_files, write_file, get_script_dir.
  erewrite bind_Ok by reflexivity. erewrite bind_Ok by exact E1.
  erewrite bind_Ok by (apply write_path_ok; by apply fixture_dir_writable; [| set_solver |]).
  erewrite bind_Ok by (apply write_path_ok; by apply fixture_dir_writable; [| set_solver |]).
  erewrite bind_Ok by reflexivity.
  erewrite bind_Ok by (apply read_path_ok; simpl; rewrite Hfs1;
    rewrite !lookup_insert_ne by done; exact Hwww).
  erewrite bind_Ok by (apply write_path_ok; by apply fixture_dir_writable; [| set_solver |]).
  eexists. split; [reflexivity|]. simpl.
  assert (Hne := fixture_paths_distinct root_dir).
  unfold fixture_path in *. rewrite Ht1. repeat split; try apply Hp1.
  - rewrite !lookup_insert_ne by (apply Hne; done). by rewrite lookup_insert_eq.
  - rewrite lookup_insert_ne by (apply Hne; done). by rewrite lookup_insert_eq.
  - by rewrite lookup_insert_eq.
Qed.

(** Preparing the fixtures touches only the file system and the output. *)
#[export] Instance prepare_files_procs_fixed r : Stable procs_fixed (prepare_files r).
Proof. unfold prepare_files, ensure_root, write_file, get_script_dir, os_access_W. apply _. Qed.

End Fixtures_props.

(** ** Witnesses *)

Lemma make_synthetic_content_spec_witness :
  (16 | small_size)%Z /\ (0 <= small_size)%Z /\
  Z.of_nat (String.length (make_synthetic_content small_size)) = small_size.
Proof.
  assert (D : (16 | small_size)%Z) by (exists 64%Z; reflexivity).
  assert (P : (0 <= small_size)%Z) by (unfold small_size; lia).
  split; [exact D|]. split; [exact P|].
  destruct (make_synthetic_content_spec small_size) as (_ & H & _). exact (H D P).
Defined.

End Fixtures.
