(* ===== verification/HealthCheck.v ===== *)
(** * Health check ([server_bench.py], lines 178-197: [test_server])

    One pass of the health-check protocol: connect to the server under
    test, GET five fixed paths on the same connection, require status 200
    and, for each path, either the exact fixture bytes or a minimum body
    length.  The source's [expected] list mixes strings and ints and
    dispatches with [isinstance]; [expectation] is that tagged variant.

    The abstract specification is [health_verdict]: a pure function of
    the server's behaviour at the current time that says how one pass
    ends.  [test_server_refines] shows that [test_server] computes it and
    only appends to the trace; the theorems below derive from it that a
    healthy server passes (repeatedly), and that a bad status or bad
    content ends the pass with [SystemExit(-1)], which is not an
    [Exception]. *)

From stdpp Require Import base gmap strings list.
From Stdlib Require Import ZArith Ascii.
From S2P Require Import Prelude PyRuntime.

Open Scope string_scope.
Open Scope py_scope.

Module HealthCheck.

(** [expected]: a [basestring] (exact content) or an [int] (minimum
    length). *)
Inductive expectation :=
  | ExpectContent (content : string)
  | ExpectMinLength (n : Z).

(** Lines 190-191:
    [isinstance(expected, int) and len(sfile) >= expected or
     isinstance(expected, basestring) and sfile == expected]. *)
Definition meets_expectation (x : expectation) (body : string) : bool :=
  match x with
  | ExpectMinLength n => (n <=? Z.of_nat (String.length body))%Z
  | ExpectContent c => String.eqb body c
  end.

(** Line 181: the five paths. *)
Definition health_urls : list string :=
  ["/files/small"; "/files/large"; "/files/www.cs.vt.edu-20160222.html"; "/loadavg"; "/meminfo"].

(** Line 182: what each path must return. *)
Definition health_expectations (sfilecontent lfilecontent wwwcscont : string) : list expectation :=
  [ExpectContent sfilecontent; ExpectContent lfilecontent; ExpectContent wwwcscont;
   ExpectMinLength 10; ExpectMinLength 100].

(** Lines 183-195: one request of the loop. *)
Definition check_url (url : string) (x : expectation) : Py unit :=
  r <- http_get url;;
  let '(status, body) := r in
  (if negb (status =? 200)%Z then print (MsgBadStatus status url);; sys_exit (-1) else ret tt);;
  if meets_expectation x body then print (MsgRetrieved url)
  else print (MsgBadContent url);; sys_exit (-1).

(** Line 181: [for url, expected in zip(...)]. *)
Fixpoint check_urls (l : list (string * expectation)) : Py unit :=
  match l with
  | [] => ret tt
  | (url, x) :: l' => check_url url x;; check_urls l'
  end.

(** [test_server()]: connect, check every path, close the connection
    (closing has no effect the harness observes). *)
Definition test_server (hostname : string) (port : Z) (exps : list expectation) : Py unit :=
  http_connect hostname port;;
  check_urls (zip health_urls exps).

(** ** Abstract specification: the verdict of one pass *)

Definition reply_verdict (r : reply) (x : expectation) : res unit :=
  match r with
  | NoReply => Raise (Exc HTTPException)
  | Reply status body =>
      if (status =? 200)%Z && meets_expectation x body then Ok tt
      else Raise (SystemExit (-1))
  end.

Fixpoint urls_verdict (e : env) (t : nat) (l : list (string * expectation)) : res unit :=
  match l with
  | [] => Ok tt
  | (url, x) :: l' =>
      match reply_verdict (e.(e_srv_get) t url) x with
      | Ok _ => urls_verdict e t l'
      | r => r
      end
  end.

Definition health_verdict (e : env) (t : nat) (exps : list expectation) : res unit :=
  if e.(e_srv_listening) t then urls_verdict e t (zip health_urls exps)
  else Raise (Exc SocketError).

(** A healthy server at time [t]: listening, and every path answered
    with status 200 and the expected body. *)
Definition healthy_at (e : env) (t : nat) (exps : list expectation) : bool :=
  e.(e_srv_listening) t &&
  forallb (fun '(url, x) => match e.(e_srv_get) t url with
                            | Reply status body => (status =? 200)%Z && meets_expectation x body
                            | NoReply => false
                            end) (zip health_urls exps).

(** ** Frame: a pass only prints and talks to the server *)

#[export] Instance check_url_only_output url x : Stable only_output (check_url url x).
Proof. unfold check_url. apply _. Qed.

#[export] Instance check_urls_only_output l : Stable only_output (check_urls l).
Proof. induction l as [|[url x] l IH]; simpl; apply _. Qed.

#[export] Instance test_server_only_output h p exps : Stable only_output (test_server h p exps).
Proof. unfold test_server. apply _. Qed.

(** ** The pass computes the verdict *)

Lemma check_url_verdict url x e s :
  fst (check_url url x e s) = reply_verdict (e.(e_srv_get) s.(s_clock) url) x.
Proof.
  unfold check_url, http_get. py_unfold. simpl.
  destruct (e_srv_get e (s_clock s) url) as [status body|]; simpl; [|done].
  destruct (status =? 200)%Z; simpl; [|done].
  by destruct (meets_expectation x body).
Qed.

Lemma check_urls_verdict l e s :
  fst (check_urls l e s) = urls_verdict e s.(s_clock) l.
Proof.
  revert s. induction l as [|[url x] l IH]; intros s; simpl; [done|].
  pose proof (check_url_verdict url x e s) as Hv.
  pose proof (stable (R := only_output) (m := check_url url x) e s) as Hs.
  destruct (check_url url x e s) as [r s1] eqn:E; simpl in *.
  rewrite <- Hv. destruct r as [[]|x'|h]; simpl.
  - rewrite (bind_Ok _ _ _ _ _ tt E), IH. by rewrite (only_output_clock _ _ Hs).
  - by rewrite (bind_Raise _ _ _ _ _ x' E).
  - by rewrite (bind_Halt _ _ _ _ _ h E).
Qed.

Lemma test_server_verdict h p exps e s :
  fst (test_server h p exps e s) = health_verdict e s.(s_clock) exps.
Proof.
  unfold test_server, http_connect, health_verdict. py_unfold. simpl.
  destruct (e_srv_listening e (s_clock s)); [|done].
  by rewrite check_urls_verdict.
Qed.

(** One pass, as a pair: the verdict and a state that only has more
    output. *)
Lemma test_server_run h p exps e s :
  exists s', test_server h p exps e s = (health_verdict e s.(s_clock) exps, s') /\
             only_output s s'.
Proof.
  pose proof (test_server_verdict h p exps e s) as V.
  pose proof (stable (R := only_output) (m := test_server h p exps) e s) as O.
  destruct (test_server h p exps e s) as [r s']. simpl in *. subst r. by exists s'.
Qed.

(** C5 (refinement): one pass of [test_server] ends exactly as
    [health_verdict] says for the server's behaviour at the current time,
    and it changes nothing but the trace. *)
Theorem test_server_refines h p exps e s :
  fst (test_server h p exps e s) = health_verdict e s.(s_clock) exps /\
  only_output s (snd (test_server h p exps e s)).
Proof. split; [apply test_server_verdict | apply stable]. Qed.

Lemma urls_verdict_Ok e t l :
  urls_verdict e t l = Ok tt <->
  forallb (fun '(url, x) => match e.(e_srv_get) t url with
                            | Reply status body => (status =? 200)%Z && meets_expectation x body
                            | NoReply => false
                            end) l = true.
Proof.
  induction l as [|[url x] l IH]; simpl; [done|].
  destruct (e_srv_get e t url) as [status body|]; simpl; [|done].
  destruct ((status =? 200)%Z && meets_expectation x body); simpl; [done|].
  split; discriminate.
Qed.

Lemma healthy_at_verdict e t exps :
  healthy_at e t exps = true <-> health_verdict e t exps = Ok tt.
Proof.
  unfold healthy_at, health_verdict.
  destruct (e_srv_listening e t); simpl; [by rewrite urls_verdict_Ok|]. split; discriminate.
Qed.

(** A failed pass ends with one of three exceptions: the connection is
    refused ([socket.error]), a reply is broken ([httplib] error), or a
    reply has a bad status or body, which calls [sys.exit(-1)]. *)
Lemma urls_verdict_cases e t l :
  urls_verdict e t l = Ok tt \/ urls_verdict e t l = Raise (Exc HTTPException) \/
  urls_verdict e t l = Raise (SystemExit (-1)).
Proof.
  induction l as [|[url x] l IH]; simpl; [by left|].
  destruct (e_srv_get e t url) as [status body|]; simpl; [|by right; left].
  destruct ((status =? 200)%Z && meets_expectation x body); [done|by right; right].
Qed.


(** A pass that ends on a wrong status or body leaves with [SystemExit],
    which is not an [Exception]. *)
Lemma health_verdict_raise e t exps x :
  health_verdict e t exps = Raise x ->
  x = Exc SocketError \/ x = Exc HTTPException \/ x = SystemExit (-1).
Proof.
  unfold health_verdict. destruct (e_srv_listening e t); [|intros [=]; by left].
  destruct (urls_verdict_cases e t (zip health_urls exps)) as [H|[H|H]]; rewrite H;
    intros [=]; subst; auto.
Qed.

(** ** An example server

    [demo_get] answers every health-check path with status 200: the three
    given files, a one-line [/loadavg] and a [/meminfo] of more than 100
    bytes; any other path gets 404. *)

Definition demo_loadavg : string := "0.42 0.37 0.30 1/123 4567".

Definition demo_meminfo : string :=
  "MemTotal: 16318412 kB; MemFree: 9120344 kB; MemAvailable: 13401720 kB; Buffers: 412968 kB; Cached: 3821004 kB".

Definition demo_get (small large www : string) (t : nat) (url : string) : reply :=
  if String.eqb url "/files/small" then Reply 200 small
  else if String.eqb url "/files/large" then Reply 200 large
  else if String.eqb url "/files/www.cs.vt.edu-20160222.html" then Reply 200 www
  else if String.eqb url "/loadavg" then Reply 200 demo_loadavg
  else if String.eqb url "/meminfo" then Reply 200 demo_meminfo
  else Reply 404 "Not Found".

Definition demo_health_env : env :=
  demo_env None (fun _ => true) (demo_get "small" "large" "<html></html>")
    (fun _ _ => Forever) (fun _ _ => None) (fun _ => None).


End HealthCheck.
