(* ===== verification/Supervisor.v ===== *)
(** * Server supervisor ([server_bench.py], lines 124-223)

    [raise_fd_limit] and [start_server]: check the server executable,
    prepare the fixtures, choose the port from the pid, raise the
    descriptor limit, launch the server, register [clean_up_testing] with
    [atexit], run the health check up to ten times one second apart, and
    either give up or print the URL for the client and wait for the
    server.  [start_server] is modelled as [server_setup] (lines 136-177)
    followed by [server_supervise] (lines 199-223), which is how the
    source's statements run.

    Theorems: the port lies in [20000, 29999]; the retry loop computes
    the pure [retry_verdict] (ten attempts at most, one second apart) and
    ends within ten seconds;
    a server that is healthy by the ninth attempt is announced and
    waited for; a server that first passes on the tenth attempt is
    reported as not started (the [tries == 9] test cannot tell the last
    success from a failure); a wrong answer ends the harness at once with
    [sys.exit(-1)] instead of being retried; whatever path the run takes,
    the server child is killed at exit unless SIGTERM kills the harness
    first. *)

From stdpp Require Import base gmap strings list.
From Stdlib Require Import ZArith Ascii.
From S2P Require Import Prelude PyRuntime Catalog Options Fixtures HealthCheck.

Open Scope string_scope.
Open Scope py_scope.

Module Supervisor.
Import Options Fixtures HealthCheck.

(** Lines 124-129: [raise_fd_limit()]. *)
Definition raise_fd_limit : Py unit :=
  print MsgRaisingFd;;
  lim <- getrlimit_nofile;;
  let '(soft, hard) := lim in
  setrlimit_nofile hard hard;;
  lim' <- getrlimit_nofile;;
  let '(soft', hard') := lim' in
  print (MsgFdLimit soft').

(** Line 161: [port = (os.getpid() % 10000) + 20000]. *)
Definition server_port (pid : Z) : Z := (pid mod 10000 + 20000)%Z.

(** Line 163: [cmd = [server_exe, "-p", str(port), "-R", root_dir, '-s']]. *)
Definition server_cmd (server_exe root_dir : string) (port : Z) : list string :=
  [server_exe; "-p"; py_str_int port; "-R"; root_dir; "-s"].

(** Lines 169-173: [clean_up_testing()]: kill the server, ignoring any
    error (bare [except]). *)
Definition clean_up_testing (pid : Z) : Py unit :=
  try_bare (os_kill pid) (fun _ => ret tt).

(** What the interpreter runs at exit for a registered handler. *)
Definition run_handler (h : handler) : Py unit :=
  match h with CleanUpTesting pid => clean_up_testing pid end.

(** Lines 167-175: launch the server and register its cleanup. *)
Definition spawn_server (cmd : list string) : Py Z :=
  pid <- popen cmd [];;
  atexit_register (CleanUpTesting pid);;
  ret pid.

(** [range(n)]. *)
Definition py_range (n : nat) : list Z := Z.of_nat <$> seq 0 n.

(** Lines 199-205:
    [for tries in range(10): try: time.sleep(1); test_server(); break
     except Exception as e: pass].
    The result is the value [tries] holds after the loop ([None] if the
    loop never ran, when reading it would raise [NameError]). *)
Fixpoint health_retry (test : Py unit) (tries : list Z) (last : option Z) : Py (option Z) :=
  match tries with
  | [] => ret last
  | t :: ts =>
      ok <- try_except (sleep1;; test;; ret true) (fun _ => ret false);;
      if ok then ret (Some t) else health_retry test ts (Some t)
  end.

(** Lines 136-177: everything before the health check; returns the port,
    the server's pid and the expectations of the health check. *)
Definition server_setup (cfg : config) (root_dir : string) : Py (Z * Z * list expectation) :=
  print MsgPreparing;;
  x <- os_access_X cfg.(cfg_server_exe);;
  (if x then ret tt else print (MsgNoExecutable cfg.(cfg_server_exe));; sys_exit (-1));;
  files <- prepare_files root_dir;;
  let '(sfilecontent, lfilecontent, wwwcscont) := files in
  e <- ask;;
  let port := server_port e.(e_pid) in
  let cmd := server_cmd cfg.(cfg_server_exe) root_dir port in
  raise_fd_limit;;
  pid <- spawn_server cmd;;
  print MsgTestingServer;;
  ret (port, pid, health_expectations sfilecontent lfilecontent wwwcscont).

(** Lines 199-223: the retries, the verdict, the announcement and the
    wait for the server. *)
Definition server_supervise (port pid : Z) (exps : list expectation) : Py unit :=
  e <- ask;;
  tries <- health_retry (test_server e.(e_hostname) port exps) (py_range 10) None;;
  (match tries with
   | None => py_raise (Exc NameError)
   | Some t => if (t =? 9)%Z then print MsgGaveUp;; sys_exit 0 else ret tt
   end);;
  print (MsgReady e.(e_argv0) e.(e_hostname) port);;
  _ <- popen_wait pid;;
  ret tt.

(** [start_server(root_dir)]. *)
Definition start_server (cfg : config) (root_dir : string) : Py unit :=
  r <- server_setup cfg root_dir;;
  let '(port, pid, exps) := r in
  server_supervise port pid exps.

(** ** Abstract specification of the retry loop *)

(** Attempt after attempt: each sleeps one second, then runs one pass of
    the health check at the new time. *)
Fixpoint retry_verdict (e : env) (exps : list expectation) (c : nat) (ts : list Z)
    (last : option Z) : res (option Z) :=
  match ts with
  | [] => Ok last
  | t :: ts' =>
      match health_verdict e (S c) exps with
      | Ok _ => Ok (Some t)
      | Raise x => if is_Exception x then retry_verdict e exps (S c) ts' (Some t) else Raise x
      | Halt h => Halt h
      end
  end.

(** One attempt: sleep, then a pass of the check. *)
#[export] Instance attempt_quiet h p exps :
  Stable quiet (sleep1;; test_server h p exps;; ret true).
Proof.
  apply bind_stable; [apply _ | apply _ | intros _].
  apply bind_stable; [apply _ | | intros; apply _].
  eapply stable_weaken; [apply only_output_quiet | apply _].
Qed.

#[export] Instance health_retry_quiet h p exps ts last :
  Stable quiet (health_retry (test_server h p exps) ts last).
Proof.
  revert last. induction ts as [|t ts IH]; intros last; simpl; [apply _|].
  apply bind_stable; [apply _ | apply _ | intros []; [apply _ | apply IH]].
Qed.

(** One attempt: the verdict of a pass one second later. *)
Lemma attempt_run h p exps e s :
  exists s', try_except (sleep1;; test_server h p exps;; ret true) (fun _ => ret false) e s =
    (match health_verdict e (S s.(s_clock)) exps with
     | Ok _ => Ok true
     | Raise x => if is_Exception x then Ok false else Raise x
     | Halt hl => Halt hl
     end, s') /\ s'.(s_clock) = S s.(s_clock).
Proof.
  destruct (sleep1_run e s) as (s1 & E1 & C1 & _).
  destruct (test_server_run h p exps e s1) as (s2 & E2 & O).
  rewrite C1 in E2. pose proof (only_output_clock _ _ O) as C2.
  unfold try_except. rewrite (bind_Ok _ _ _ _ _ tt E1).
  destruct (health_verdict e (S (s_clock s)) exps) as [[]|x|hl].
  - rewrite (bind_Ok _ _ _ _ _ tt E2). eexists. split; [reflexivity|congruence].
  - rewrite (bind_Raise _ _ _ _ _ x E2). destruct (is_Exception x);
      eexists; (split; [reflexivity|congruence]).
  - rewrite (bind_Halt _ _ _ _ _ hl E2). eexists. split; [reflexivity|congruence].
Qed.

Lemma health_retry_verdict h p exps ts last e s :
  fst (health_retry (test_server h p exps) ts last e s) =
  retry_verdict e exps s.(s_clock) ts last.
Proof.
  revert last s. induction ts as [|t ts IH]; intros last s; [done|].
  cbn [health_retry retry_verdict].
  destruct (attempt_run h p exps e s) as (s1 & E & C).
  destruct (health_verdict e (S (s_clock s)) exps) as [[]|x|hl].
  - by rewrite (bind_Ok _ _ _ _ _ true E).
  - destruct (is_Exception x).
    + rewrite (bind_Ok _ _ _ _ _ false E), IH. by rewrite C.
    + by rewrite (bind_Raise _ _ _ _ _ x E).
  - by rewrite (bind_Halt _ _ _ _ _ hl E).
Qed.

(** ** Running the setup *)

(** C21 (bounds): the port is always in [20000, 29999], whatever the pid
    (Python's [%] with a positive modulus is never negative). *)
Theorem server_port_bounds (pid : Z) :
  (20000 <= server_port pid <= 29999)%Z.
Proof. unfold server_port. pose proof (Z.mod_pos_bound pid 10000). lia. Qed.

(** Raising the limit sets the soft limit to the hard one; it cannot
    fail, since the new limits never exceed the old hard limit. *)
Lemma raise_fd_limit_run e s :
  exists s', raise_fd_limit e s = (Ok tt, s') /\
    s'.(s_soft) = s.(s_hard) /\ s'.(s_hard) = s.(s_hard) /\
    s'.(s_fs) = s.(s_fs) /\ s'.(s_dirs) = s.(s_dirs) /\ s'.(s_exec) = s.(s_exec) /\
    s'.(s_children) = s.(s_children) /\ s'.(s_next_pid) = s.(s_next_pid) /\
    s'.(s_atexit) = s.(s_atexit) /\ s'.(s_clock) = s.(s_clock).
Proof.
  unfold raise_fd_limit, setrlimit_nofile, getrlimit_nofile. py_unfold. simpl.
  rewrite Z.leb_refl. simpl. eexists. split; [reflexivity|]. by repeat split.
Qed.

(** Launching an executable server gives it the next pid, a running
    child, and registers its cleanup. *)
Lemma spawn_server_run cmd exe rest e s :
  cmd = exe :: rest -> exe ∈ s.(s_exec) ->
  exists s', spawn_server cmd e s = (Ok s.(s_next_pid), s') /\
    s'.(s_children) = <[s.(s_next_pid) := {| c_cmd := cmd; c_env := []; c_status := Running |}]>
                        s.(s_children) /\
    s'.(s_atexit) = CleanUpTesting s.(s_next_pid) :: s.(s_atexit) /\
    s'.(s_clock) = s.(s_clock) /\ s'.(s_exec) = s.(s_exec) /\ s'.(s_fs) = s.(s_fs).
Proof.
  intros -> Hx. unfold spawn_server, popen, atexit_register. py_unfold.
  rewrite bool_decide_eq_true_2 by done. eexists. split; [reflexivity|]. by repeat split.
Qed.

(** What a successful start of the server needs from the machine: an
    executable server, a usable root directory and the home-page copy
    next to the script. *)
Definition can_start (cfg : config) (root_dir : string) (e : env) (s : state) (w : string) : Prop :=
  cfg.(cfg_server_exe) ∈ s.(s_exec) /\ root_dir <> "" /\
  (dir_writable root_dir s = true \/ (s.(s_dirs) !! root_dir = None /\ s.(s_fs) !! root_dir = None)) /\
  www_source (script_dir_of e.(e_file) e.(e_cwd)) <> fixture_path root_dir "small" /\
  www_source (script_dir_of e.(e_file) e.(e_cwd)) <> fixture_path root_dir "large" /\
  s.(s_fs) !! www_source (script_dir_of e.(e_file) e.(e_cwd)) = Some w.

Definition fixture_expectations (w : string) : list expectation :=
  health_expectations (make_synthetic_content small_size) (make_synthetic_content large_size) w.

Lemma server_setup_run cfg root_dir e s w :
  can_start cfg root_dir e s w ->
  exists s1, server_setup cfg root_dir e s =
    (Ok (server_port e.(e_pid), s.(s_next_pid), fixture_expectations w), s1) /\
    s1.(s_children) = <[s.(s_next_pid) := {| c_cmd := server_cmd cfg.(cfg_server_exe) root_dir
                                                          (server_port e.(e_pid));
                                             c_env := []; c_status := Running |}]> s.(s_children) /\
    s1.(s_atexit) = CleanUpTesting s.(s_next_pid) :: s.(s_atexit) /\
    s1.(s_clock) = s.(s_clock).
Proof.
  intros (Hx & Hr & Hw & Hs & Hl & Hwww).
  destruct (prepare_files_ok root_dir w e (add_event (EvPrint MsgPreparing) s))
    as (s2 & E2 & (X2 & Ch2 & N2 & A2 & C2 & _) & _); [done..|].
  destruct (raise_fd_limit_run e s2) as (s3 & E3 & _ & _ & _ & _ & X3 & Ch3 & N3 & A3 & C3).
  destruct (spawn_server_run (server_cmd cfg.(cfg_server_exe) root_dir (server_port e.(e_pid)))
              cfg.(cfg_server_exe) ["-p"; py_str_int (server_port e.(e_pid)); "-R"; root_dir; "-s"] e s3)
    as (s4 & E4 & Ch4 & A4 & C4 & _);
    [reflexivity | rewrite X3, X2; exact Hx |].
  unfold server_setup, os_access_X, gets.
  py_step by reflexivity. py_step by reflexivity.
  rewrite bool_decide_eq_true_2 by exact Hx. cbv iota.
  py_step by reflexivity. py_step by exact E2.
  py_step by reflexivity. py_step by exact E3.
  py_step by exact E4. py_step by reflexivity.
  eexists. split; [rewrite N3, N2; reflexivity|].
  simpl. rewrite Ch4, A4, C4, Ch3, A3, C3, N3, Ch2, A2, C2, N2. by repeat split.
Qed.

(** ** The retry loop on a server that comes up late *)

(** An attempt that fails with an [Exception] moves on to the next one. *)
Lemma retry_verdict_cons_fail e exps c t ts last kd :
  health_verdict e (S c) exps = Raise (Exc kd) ->
  retry_verdict e exps c (t :: ts) last = retry_verdict e exps (S c) ts (Some t).
Proof. intros H. simpl. by rewrite H. Qed.

Lemma fail_shift e exps c k :
  (forall j, j < S k -> exists kd, health_verdict e (S (c + j)) exps = Raise (Exc kd)) ->
  forall j, j < k -> exists kd, health_verdict e (S (S c + j)) exps = Raise (Exc kd).
Proof. intros H j Hj. replace (S (S c + j)) with (S (c + S j)) by lia. apply H. lia. Qed.

Lemma fail_first e exps c k :
  (forall j, j < S k -> exists kd, health_verdict e (S (c + j)) exps = Raise (Exc kd)) ->
  exists kd, health_verdict e (S c) exps = Raise (Exc kd).
Proof. intros H. rewrite <- (Nat.add_0_r c). apply H. lia. Qed.

(** Attempts [0 .. k-1] fail with an [Exception] and attempt [k]
    passes: the loop stops with the [k]-th value. *)
Lemma retry_verdict_first_ok e exps c ts last k t :
  ts !! k = Some t ->
  (forall j, j < k -> exists kd, health_verdict e (S (c + j)) exps = Raise (Exc kd)) ->
  health_verdict e (S (c + k)) exps = Ok tt ->
  retry_verdict e exps c ts last = Ok (Some t).
Proof.
  revert c k last. induction ts as [|t0 ts IH]; intros c k last Hk Hfail Hok; [done|].
  destruct k as [|k].
  - simpl in *. rewrite Nat.add_0_r in Hok. rewrite Hok. congruence.
  - destruct (fail_first _ _ _ _ Hfail) as [kd Hkd].
    rewrite (retry_verdict_cons_fail _ _ _ _ _ _ _ Hkd).
    apply (IH _ k); [done | by apply fail_shift |].
    by replace (S (S c + k)) with (S (c + S k)) by lia.
Qed.

(** Every attempt fails with an [Exception]: the loop ends with the
    last value of the range. *)
Lemma retry_verdict_all_fail e exps c ts tl last :
  (forall j, j < S (length ts) -> exists kd, health_verdict e (S (c + j)) exps = Raise (Exc kd)) ->
  retry_verdict e exps c (ts ++ [tl])%list last = Ok (Some tl).
Proof.
  revert c last. induction ts as [|t0 ts IH]; intros c last Hfail;
    destruct (fail_first _ _ _ _ Hfail) as [kd Hkd]; cbn [app];
    rewrite (retry_verdict_cons_fail _ _ _ _ _ _ _ Hkd); [done|].
  apply IH. by apply fail_shift.
Qed.

(** Attempts [0 .. k-1] fail with an [Exception] and attempt [k] ends
    with an exception that is not one: the loop ends with it. *)
Lemma retry_verdict_stop e exps c ts last k t x :
  ts !! k = Some t ->
  (forall j, j < k -> exists kd, health_verdict e (S (c + j)) exps = Raise (Exc kd)) ->
  health_verdict e (S (c + k)) exps = Raise x -> is_Exception x = false ->
  retry_verdict e exps c ts last = Raise x.
Proof.
  revert c k last. induction ts as [|t0 ts IH]; intros c k last Hk Hfail Hx Hn; [done|].
  destruct k as [|k].
  - simpl in *. rewrite Nat.add_0_r in Hx. by rewrite Hx, Hn.
  - destruct (fail_first _ _ _ _ Hfail) as [kd Hkd].
    rewrite (retry_verdict_cons_fail _ _ _ _ _ _ _ Hkd).
    apply (IH _ k); [done | by apply fail_shift | | done].
    by replace (S (S c + k)) with (S (c + S k)) by lia.
Qed.

Lemma health_retry_run h p exps ts last e s :
  exists s', health_retry (test_server h p exps) ts last e s =
             (retry_verdict e exps s.(s_clock) ts last, s') /\ quiet s s'.
Proof.
  pose proof (health_retry_verdict h p exps ts last e s) as V.
  pose proof (stable (R := quiet) (m := health_retry (test_server h p exps) ts last) e s) as Q.
  destruct (health_retry (test_server h p exps) ts last e s) as [r s'].
  simpl in *. subst r. by exists s'.
Qed.

Lemma health_retry_clock h p exps ts last e s :
  ts <> [] ->
  s.(s_clock) < (snd (health_retry (test_server h p exps) ts last e s)).(s_clock) <=
    s.(s_clock) + length ts.
Proof.
  revert last s. induction ts as [|t ts IH]; intros last s Hts; [done|].
  cbn [health_retry]. destruct (attempt_run h p exps e s) as (s1 & E & C).
  simpl length.
  destruct (health_verdict e (S (s_clock s)) exps) as [[]|x|hl].
  - rewrite (bind_Ok _ _ _ _ _ true E). simpl. lia.
  - destruct (is_Exception x).
    + rewrite (bind_Ok _ _ _ _ _ false E). simpl.
      destruct ts as [|t' ts]; simpl; [lia|].
      specialize (IH (Some t) s1 ltac:(discriminate)). rewrite C in IH. simpl in IH. lia.
    + rewrite (bind_Raise _ _ _ _ _ x E). simpl. lia.
  - rewrite (bind_Halt _ _ _ _ _ hl E). simpl. lia.
Qed.

(** C29 (bounds): the health check of [start_server] sleeps one second
    per attempt and makes at most ten: the loop ends between one and ten
    seconds after it starts, whatever the server does. *)
Theorem health_retry_time_bound h p exps e s :
  s.(s_clock) + 1 <= (snd (health_retry (test_server h p exps) (py_range 10) None e s)).(s_clock)
    <= s.(s_clock) + 10.
Proof.
  pose proof (health_retry_clock h p exps (py_range 10) None e s ltac:(discriminate)) as H.
  change (length (py_range 10)) with 10 in H. lia.
Qed.

(** C4 (refinement): the retry loop computes [retry_verdict]: the
    first attempt whose pass succeeds stops it with the loop variable's
    value, an [Exception] moves on to the next attempt one second later,
    and any other exception ([SystemExit]) leaves the loop; besides the
    clock and the output, it changes nothing. *)
Theorem health_retry_refines h p exps ts last e s :
  fst (health_retry (test_server h p exps) ts last e s) =
    retry_verdict e exps s.(s_clock) ts last /\
  quiet s (snd (health_retry (test_server h p exps) ts last e s)).
Proof. split; [apply health_retry_verdict | apply stable]. Qed.

(** The server accepts no connection before time [T] and passes the
    health check at time [T]. *)
Definition comes_up_at (e : env) (T : nat) (exps : list expectation) : Prop :=
  (forall t, t < T -> e.(e_srv_listening) t = false) /\ healthy_at e T exps = true.

Lemma comes_up_before e T exps j c :
  comes_up_at e T exps -> S (c + j) < T ->
  exists kd, health_verdict e (S (c + j)) exps = Raise (Exc kd).
Proof.
  intros [Hdown _] Hj. unfold health_verdict. rewrite Hdown by done. by eexists.
Qed.

Lemma comes_up_verdict e T exps :
  comes_up_at e T exps -> health_verdict e T exps = Ok tt.
Proof. intros [_ Hh]. by apply healthy_at_verdict. Qed.

Lemma py_range_lookup (n k : nat) : k < n -> py_range n !! k = Some (Z.of_nat k).
Proof.
  intros Hk. unfold py_range. rewrite list_lookup_fmap, lookup_seq_lt by done. done.
Qed.

(** ** After the setup: retries, verdict, announcement, wait *)

Lemma server_supervise_run port pid exps e s :
  exists s2, quiet s s2 /\
   server_supervise port pid exps e s =
     match retry_verdict e exps s.(s_clock) (py_range 10) None with
     | Ok None => (Raise (Exc NameError), s2)
     | Ok (Some t) =>
         if (t =? 9)%Z then (Raise (SystemExit 0), add_event (EvPrint MsgGaveUp) s2)
         else (_ <- popen_wait pid;; ret tt) e
                (add_event (EvPrint (MsgReady e.(e_argv0) e.(e_hostname) port)) s2)
     | Raise x => (Raise x, s2)
     | Halt h => (Halt h, s2)
     end.
Proof.
  destruct (health_retry_run e.(e_hostname) port exps (py_range 10) None e s) as (s2 & E & Q).
  exists s2. split; [done|]. unfold server_supervise.
  py_step by reflexivity.
  destruct (retry_verdict e exps (s_clock s) (py_range 10) None) as [[t|]|x|h] eqn:V.
  - py_step by exact E. destruct (t =? 9)%Z; [reflexivity|].
    by py_step by reflexivity.
  - py_step by exact E. reflexivity.
  - by rewrite (bind_Raise _ _ _ _ _ x E).
  - by rewrite (bind_Halt _ _ _ _ _ h E).
Qed.

(** How the harness's [server.wait()] ends, as seen by [start_server]. *)
Definition wait_result (o : wait_outcome) : res unit :=
  match wait_res o with Ok _ => Ok tt | Raise x => Raise x | Halt h => Halt h end.

(** The child record of the launched server. *)
Definition server_child (cfg : config) (root_dir : string) (e : env) : child :=
  {| c_cmd := server_cmd cfg.(cfg_server_exe) root_dir (server_port e.(e_pid));
     c_env := []; c_status := Running |}.

(** A server that comes up within nine seconds is announced, and the
    harness reaches [server.wait()] with the server running. *)
Lemma start_server_reaches_wait cfg root_dir e s w T :
  can_start cfg root_dir e s w ->
  comes_up_at e T (fixture_expectations w) ->
  s.(s_clock) < T <= s.(s_clock) + 9 ->
  exists s2, start_server cfg root_dir e s = (_ <- popen_wait s.(s_next_pid);; ret tt) e s2 /\
    s2.(s_children) !! s.(s_next_pid) = Some (server_child cfg root_dir e) /\
    EvPrint (MsgReady e.(e_argv0) e.(e_hostname) (server_port e.(e_pid))) ∈ s2.(s_trace).
Proof.
  intros Hcan Hup HT.
  destruct (server_setup_run cfg root_dir e s w Hcan) as (s1 & E1 & Ch1 & A1 & C1).
  destruct (server_supervise_run (server_port e.(e_pid)) s.(s_next_pid) (fixture_expectations w) e s1)
    as (s2 & (_&_&_&Ch2&_) & E2).
  unfold start_server. py_step by exact E1. rewrite E2, C1.
  set (k := T - S (s_clock s)).
  rewrite (retry_verdict_first_ok _ _ _ _ _ k (Z.of_nat k)).
  - destruct (Z.eqb_spec (Z.of_nat k) 9) as [Hk|Hk]; [lia|].
    eexists. split; [reflexivity|]. simpl. rewrite Ch2, Ch1, lookup_insert_eq.
    split; [done | set_solver].
  - apply py_range_lookup. lia.
  - intros j Hj. apply (comes_up_before _ T); [done | lia].
  - replace (S (s_clock s + k)) with T by lia. by apply comes_up_verdict.
Qed.

(** C6 (liveness): a server that comes up within nine seconds (it passes
    the health check at some attempt before the tenth) is announced with
    the host and port for the client, and the harness then waits for the
    server: it returns when the server exits, or blocks until a signal
    comes. *)
Theorem start_server_ready cfg root_dir e s w T :
  can_start cfg root_dir e s w ->
  comes_up_at e T (fixture_expectations w) ->
  s.(s_clock) < T <= s.(s_clock) + 9 ->
  exists s', start_server cfg root_dir e s =
    (wait_result (e.(e_child_end) s.(s_next_pid)
                    (server_cmd cfg.(cfg_server_exe) root_dir (server_port e.(e_pid)))), s') /\
    EvPrint (MsgReady e.(e_argv0) e.(e_hostname) (server_port e.(e_pid))) ∈ s'.(s_trace).
Proof.
  intros Hcan Hup HT.
  destruct (start_server_reaches_wait cfg root_dir e s w T Hcan Hup HT) as (s2 & E & Hc & Hm).
  rewrite E. destruct (popen_wait_running _ _ e s2 Hc eq_refl) as (s3 & E3 & T3 & _ & _).
  simpl in E3. unfold wait_result.
  destruct (e_child_end e (s_next_pid s) _) as [code| | |]; simpl in E3;
    [py_step by exact E3 | rewrite (bind_Raise _ _ _ _ _ _ E3)
    | rewrite (bind_Halt _ _ _ _ _ _ E3) | rewrite (bind_Halt _ _ _ _ _ _ E3)];
    eexists; (split; [reflexivity|]); by rewrite T3.
Qed.

(** C9 (divergence from the cleanup guarantee): the cleanup is an
    [atexit] handler, and the interpreter does not run those when SIGTERM
    ends it; a SIGTERM that reaches the harness while it waits for a
    healthy server leaves the server running. *)
Theorem start_server_sigterm_orphan cfg root_dir e s w T :
  can_start cfg root_dir e s w ->
  comes_up_at e T (fixture_expectations w) ->
  s.(s_clock) < T <= s.(s_clock) + 9 ->
  e.(e_child_end) s.(s_next_pid) (server_cmd cfg.(cfg_server_exe) root_dir (server_port e.(e_pid)))
    = SigTerm ->
  exists s', run_process run_handler (start_server cfg root_dir) e s = (ProcSignalled 15, s') /\
    s'.(s_children) !! s.(s_next_pid) = Some (server_child cfg root_dir e).
Proof.
  intros Hcan Hup HT Hsig.
  destruct (start_server_reaches_wait cfg root_dir e s w T Hcan Hup HT) as (s2 & E & Hc & _).
  destruct (popen_wait_running _ _ e s2 Hc eq_refl) as (s3 & E3 & _ & _ & Hs3).
  simpl in E3, Hs3. rewrite Hsig in E3, Hs3. subst s3.
  unfold run_process. rewrite E, (bind_Halt _ _ _ _ _ _ E3). by eexists.
Qed.

(** C7 (code bug): a server that passes the health check only at the
    tenth attempt is reported as not started: the loop breaks with
    [tries = 9], which the test [tries == 9] cannot tell from ten
    failures, so the harness prints "giving up" and exits with 0. *)
Theorem start_server_pass_on_tenth_try cfg root_dir e s w :
  can_start cfg root_dir e s w ->
  comes_up_at e (s.(s_clock) + 10) (fixture_expectations w) ->
  exists s', start_server cfg root_dir e s = (Raise (SystemExit 0), s') /\
             list.last s'.(s_trace) = Some (EvPrint MsgGaveUp).
Proof.
  intros Hcan Hup.
  destruct (server_setup_run cfg root_dir e s w Hcan) as (s1 & E1 & _ & _ & C1).
  destruct (server_supervise_run (server_port e.(e_pid)) s.(s_next_pid) (fixture_expectations w) e s1)
    as (s2 & _ & E2).
  unfold start_server. py_step by exact E1. rewrite E2, C1.
  rewrite (retry_verdict_first_ok _ _ _ _ _ 9 9); [| done | |].
  - eexists. split; [reflexivity|]. simpl. apply last_snoc.
  - intros j Hj. apply (comes_up_before _ (s_clock s + 10)); [done | lia].
  - replace (S (s_clock s + 9)) with (s_clock s + 10) by lia. by apply comes_up_verdict.
Qed.

(** When the server answers the first attempt with a wrong status or
    wrong content, [test_server] calls [sys.exit(-1)]; [SystemExit] is
    not an [Exception], so the retry loop does not catch it and
    [start_server] ends at once with [SystemExit(-1)]. *)
Lemma start_server_wrong_answer cfg root_dir e s w :
  can_start cfg root_dir e s w ->
  health_verdict e (S s.(s_clock)) (fixture_expectations w) = Raise (SystemExit (-1)) ->
  exists s', start_server cfg root_dir e s = (Raise (SystemExit (-1)), s').
Proof.
  intros Hcan Hbad.
  destruct (server_setup_run cfg root_dir e s w Hcan) as (s1 & E1 & _ & _ & C1).
  destruct (server_supervise_run (server_port e.(e_pid)) s.(s_next_pid) (fixture_expectations w) e s1)
    as (s2 & _ & E2).
  unfold start_server. py_step by exact E1. rewrite E2, C1.
  rewrite (retry_verdict_stop _ _ _ _ _ 0 0 (SystemExit (-1))); [by eexists | done | lia | | done].
  by rewrite Nat.add_0_r.
Qed.

(** ** No orphaned server: every running child has its cleanup registered *)

Definition registered (s : state) : Prop :=
  map_Forall (fun pid c => c.(c_status) = Running -> CleanUpTesting pid ∈ s.(s_atexit))
    s.(s_children).

#[export] Instance registered_dec s : Decision (registered s).
Proof. unfold registered. apply _. Defined.

#[export] Instance raise_fd_limit_procs_fixed : Stable procs_fixed raise_fd_limit.
Proof. unfold raise_fd_limit, getrlimit_nofile. apply _. Qed.

Definition keeps_registered (s s' : state) : Prop := registered s -> registered s'.

#[export] Instance keeps_registered_preorder : PreOrder keeps_registered.
Proof. split; [by intros s H | intros s1 s2 s3 H12 H23 H; auto]. Qed.

Lemma procs_fixed_keeps s s' : procs_fixed s s' -> keeps_registered s s'.
Proof. intros (Hc & _ & Ha) H. unfold registered. by rewrite Hc, Ha. Qed.

#[export] Instance prepare_files_keeps r : Stable keeps_registered (prepare_files r).
Proof. eapply stable_weaken; [apply procs_fixed_keeps | apply _]. Qed.

#[export] Instance raise_fd_limit_keeps : Stable keeps_registered raise_fd_limit.
Proof. eapply stable_weaken; [apply procs_fixed_keeps | apply _]. Qed.

#[export] Instance print_keeps m : Stable keeps_registered (print m).
Proof. eapply stable_weaken; [apply procs_fixed_keeps | apply _]. Qed.

#[export] Instance health_retry_keeps h p exps ts last :
  Stable keeps_registered (health_retry (test_server h p exps) ts last).
Proof.
  eapply stable_weaken; [|apply _].
  intros s s' Hq. by apply procs_fixed_keeps, quiet_procs_fixed.
Qed.

(** Launching the server and registering its cleanup at once keeps
    every running child registered. *)
#[export] Instance spawn_server_keeps cmd : Stable keeps_registered (spawn_server cmd).
Proof.
  intros e s H. unfold spawn_server, popen. py_unfold.
  destruct cmd as [|exe rest]; [done|]. case_decide; [|done]. simpl.
  unfold registered. simpl. apply map_Forall_insert_2.
  - intros _. set_solver.
  - intros pid c Hc Hr. apply elem_of_cons. right. by apply (H pid c).
Qed.

(** Waiting only ever stops a child. *)
#[export] Instance popen_wait_keeps pid : Stable keeps_registered (popen_wait pid).
Proof.
  intros e s H. unfold popen_wait.
  destruct (s_children s !! pid) as [c|] eqn:Hc; [|done].
  destruct (c_status c); [|done|done].
  destruct (e_child_end e pid (c_cmd c)); [|done..].
  unfold registered, set_status. simpl. apply map_Forall_insert_2; [done|].
  unfold child_effect. by repeat case_match.
Qed.

#[export] Instance server_setup_keeps cfg r : Stable keeps_registered (server_setup cfg r).
Proof. unfold server_setup, os_access_X. apply _. Qed.

#[export] Instance server_supervise_keeps port pid exps :
  Stable keeps_registered (server_supervise port pid exps).
Proof.
  unfold server_supervise. apply bind_stable; [apply _ | apply _ | intros e].
  apply bind_stable; [apply _ | apply _ | intros [t|]]; apply _.
Qed.

#[export] Instance start_server_keeps cfg r : Stable keeps_registered (start_server cfg r).
Proof. unfold start_server. apply _. Qed.

(** ** The process table stays well formed *)

#[export] Instance health_retry_fresh h p exps ts last :
  Stable keeps_fresh (health_retry (test_server h p exps) ts last).
Proof.
  apply (stable_weaken quiet); [|apply _].
  intros s s' Hq. by apply procs_fixed_fresh, quiet_procs_fixed.
Qed.

#[export] Instance server_setup_fresh cfg r : Stable keeps_fresh (server_setup cfg r).
Proof. unfold server_setup, spawn_server, os_access_X. apply _. Qed.

#[export] Instance server_supervise_fresh port pid exps :
  Stable keeps_fresh (server_supervise port pid exps).
Proof.
  unfold server_supervise. apply bind_stable; [apply _ | apply _ | intros e].
  apply bind_stable; [apply _ | apply _ | intros [t|]]; apply _.
Qed.

#[export] Instance start_server_fresh cfg r : Stable keeps_fresh (start_server cfg r).
Proof. unfold start_server. apply _. Qed.

#[export] Instance run_handler_fresh h : Stable keeps_fresh (run_handler h).
Proof. destruct h. unfold run_handler, clean_up_testing. apply _. Qed.

(** Running the handler of [p] always returns, and afterwards the
    running children are those running before, except [p]. *)
Lemma handler_run p e s :
  exists s1, try_bare (run_handler (CleanUpTesting p)) (fun _ => ret tt) e s = (Ok tt, s1) /\
    forall pid c', s1.(s_children) !! pid = Some c' -> c'.(c_status) = Running ->
      pid <> p /\ exists c, s.(s_children) !! pid = Some c /\ c.(c_status) = Running.
Proof.
  simpl. unfold clean_up_testing, try_bare, os_kill.
  destruct (s_children s !! p) as [c0|] eqn:Hp.
  - destruct (c_status c0) eqn:Hs0; eexists; (split; [reflexivity|]);
      intros pid c' Hc Hr; simpl in *.
    + unfold set_status in Hc. simpl in Hc. rewrite lookup_insert in Hc.
      case_decide; simplify_eq; split; eauto.
    + split; [congruence | eauto].
    + split; [congruence | eauto].
  - eexists. split; [reflexivity|]. intros pid c' Hc Hr. split; [congruence | eauto].
Qed.

(** At exit, the handlers kill every child that is still running. *)
Lemma run_atexit_stops hs e s :
  (forall pid c, s.(s_children) !! pid = Some c -> c.(c_status) = Running ->
                 CleanUpTesting pid ∈ hs) ->
  map_Forall (fun _ c => c.(c_status) <> Running) (snd (run_atexit run_handler hs e s)).(s_children).
Proof.
  revert s. induction hs as [|[p] hs IH]; intros s Hreg.
  - intros pid c Hc Hr. pose proof (Hreg pid c Hc Hr). set_solver.
  - destruct (handler_run p e s) as (s1 & E & Hrun). simpl.
    rewrite (bind_Ok _ _ _ _ _ tt E). apply IH.
    intros pid c' Hc Hr. destruct (Hrun pid c' Hc Hr) as (Hne & c & Hc0 & Hr0).
    pose proof (Hreg pid c Hc0 Hr0) as Hin.
    apply elem_of_cons in Hin as [[= ->]|]; [congruence | done].
Qed.

(** A program that ends with every running child registered leaves no
    child running once the interpreter has exited normally. *)
Lemma exit_kills_registered (m : Py unit) e s :
  registered (snd (m e s)) ->
  match run_process run_handler m e s with
  | (ProcExit _, s') => map_Forall (fun _ c => c.(c_status) <> Running) s'.(s_children)
  | _ => True
  end.
Proof.
  intros H1. unfold run_process.
  destruct (m e s) as [r s1]; simpl in H1.
  assert (Hall : map_Forall (fun _ c => c.(c_status) <> Running)
                   (snd (run_atexit run_handler (s_atexit s1) e s1)).(s_children)).
  { apply run_atexit_stops. intros pid c Hc Hr. exact (H1 pid c Hc Hr). }
  by destruct r as [|x|[]].
Qed.


(** ** An example machine

    The harness of [demo_env] in [/opt/bench], with the department page
    in [/opt/bench/res/], the server executable [./sysstatd] present and
    no [_serverroot_] yet.  The server starts listening at second [T] and
    then answers as [demo_get] with the fixture contents; [cend] says how
    the waited-for server ends. *)

Definition demo_www : string := "<html>CS@VT</html>".

Definition demo_server_env (T : nat) (cend : Z -> list string -> wait_outcome) : env :=
  demo_env (Some ([], [])) (fun t => Nat.leb T t)
    (demo_get (make_synthetic_content small_size) (make_synthetic_content large_size) demo_www)
    cend (fun _ _ => None) (fun _ => None).

Definition demo_server_state : state :=
  demo_state [("/opt/bench/res/www.cs.vt.edu-20160222.html", demo_www)] [] ["./sysstatd"].

Lemma demo_can_start T cend :
  can_start default_config Catalog.server_root_default (demo_server_env T cend) demo_server_state demo_www.
Proof. unfold can_start. by_eval. Qed.

Lemma demo_comes_up T cend :
  comes_up_at (demo_server_env T cend) T (fixture_expectations demo_www).
Proof.
  split.
  - intros t Ht. simpl. apply Nat.leb_gt. lia.
  - unfold healthy_at.
    replace (e_srv_listening (demo_server_env T cend) T) with true
      by (symmetry; apply Nat.leb_refl).
    vm_compute. reflexivity.
Qed.

(** ** Configuration errors and the fixtures round trip *)

(** C31 (error): a missing or non-executable server binary ends
    [start_server] at once with [sys.exit(-1)], after two messages and
    with nothing else changed; in particular the descriptor limit has not
    been raised yet: the source raises it only after the fixtures are
    written (line 165), not before anything else. *)
Theorem start_server_missing_exe cfg root_dir e s :
  cfg.(cfg_server_exe) ∉ s.(s_exec) ->
  start_server cfg root_dir e s =
    (Raise (SystemExit (-1)),
     add_events [EvPrint MsgPreparing; EvPrint (MsgNoExecutable cfg.(cfg_server_exe))] s).
Proof.
  intros H. unfold start_server, server_setup, os_access_X.
  unfold bind at 1 2. cbv beta iota delta [print emit modify gets bind ret sys_exit py_raise].
  rewrite bool_decide_eq_false_2 by exact H. reflexivity.
Qed.

(** C32 (round trip): what [prepare_files] writes is what the health
    check expects.  A server that serves each [/files/<name>] from
    [<root>/<name>] of the file system the preparation leaves, and whose
    two probes answer with at least 10 and 100 bytes, passes the check
    with the expectations [start_server] builds. *)
Theorem fixtures_roundtrip root_dir w e s e' t lavg minfo :
  root_dir <> "" ->
  (dir_writable root_dir s = true \/ (s.(s_dirs) !! root_dir = None /\ s.(s_fs) !! root_dir = None)) ->
  www_source (script_dir_of e.(e_file) e.(e_cwd)) <> fixture_path root_dir "small" ->
  www_source (script_dir_of e.(e_file) e.(e_cwd)) <> fixture_path root_dir "large" ->
  s.(s_fs) !! www_source (script_dir_of e.(e_file) e.(e_cwd)) = Some w ->
  e'.(e_srv_listening) t = true ->
  e'.(e_srv_get) t "/loadavg" = Reply 200 lavg -> (10 <= Z.of_nat (String.length lavg))%Z ->
  e'.(e_srv_get) t "/meminfo" = Reply 200 minfo -> (100 <= Z.of_nat (String.length minfo))%Z ->
  exists s' sf lf wf, prepare_files root_dir e s = (Ok (sf, lf, wf), s') /\
    ((forall n, n ∈ ["small"; "large"; www_name] ->
        e'.(e_srv_get) t ("/files/" +:+ n) =
          match s'.(s_fs) !! fixture_path root_dir n with Some c => Reply 200 c | None => NoReply end) ->
     healthy_at e' t (health_expectations sf lf wf) = true).
Proof.
  intros Hr Hw Hs Hl Hwww Hlis Hla Hla10 Hmi Hmi100.
  destruct (prepare_files_ok root_dir w e s Hr Hw Hs Hl Hwww)
    as (s' & E & _ & _ & Fs & Fl & Fw).
  eexists s', _, _, _. split; [exact E|]. intros Hserve.
  unfold healthy_at. rewrite Hlis. cbn [zip health_urls health_expectations forallb].
  change "/files/small" with ("/files/" +:+ "small").
  change "/files/large" with ("/files/" +:+ "large").
  change "/files/www.cs.vt.edu-20160222.html" with ("/files/" +:+ www_name).
  rewrite (Hserve "small"), (Hserve "large"), (Hserve www_name) by set_solver.
  rewrite Fs, Fl, Fw, Hla, Hmi. cbn [meets_expectation].
  rewrite !String.eqb_refl. apply Z.leb_le in Hla10, Hmi100. by rewrite Hla10, Hmi100.
Qed.

(** ** Witnesses *)

Lemma start_server_ready_witness :
  can_start default_config Catalog.server_root_default (demo_server_env 3 (fun _ _ => ChildExits 0))
    demo_server_state demo_www /\
  comes_up_at (demo_server_env 3 (fun _ _ => ChildExits 0)) 3 (fixture_expectations demo_www) /\
  s_clock demo_server_state < 3 <= s_clock demo_server_state + 9 /\
  exists s', start_server default_config Catalog.server_root_default
               (demo_server_env 3 (fun _ _ => ChildExits 0)) demo_server_state =
    (wait_result (ChildExits 0), s') /\
    EvPrint (MsgReady "/opt/bench/server_bench.py" "hickory" 24242) ∈ s'.(s_trace).
Proof.
  pose proof (demo_can_start 3 (fun _ _ => ChildExits 0)) as H1.
  pose proof (demo_comes_up 3 (fun _ _ => ChildExits 0)) as H2.
  assert (H3 : s_clock demo_server_state < 3 <= s_clock demo_server_state + 9) by (simpl; lia).
  split; [exact H1|]. split; [exact H2|]. split; [exact H3|].
  exact (start_server_ready _ _ _ _ _ _ H1 H2 H3).
Defined.

Lemma start_server_sigterm_orphan_witness :
  can_start default_config Catalog.server_root_default (demo_server_env 3 (fun _ _ => SigTerm))
    demo_server_state demo_www /\
  comes_up_at (demo_server_env 3 (fun _ _ => SigTerm)) 3 (fixture_expectations demo_www) /\
  s_clock demo_server_state < 3 <= s_clock demo_server_state + 9 /\
  e_child_end (demo_server_env 3 (fun _ _ => SigTerm)) 100
    (server_cmd "./sysstatd" Catalog.server_root_default 24242) = SigTerm /\
  exists s', run_process run_handler (start_server default_config Catalog.server_root_default)
               (demo_server_env 3 (fun _ _ => SigTerm)) demo_server_state = (ProcSignalled 15, s') /\
    s'.(s_children) !! 100%Z =
      Some (server_child default_config Catalog.server_root_default (demo_server_env 3 (fun _ _ => SigTerm))).
Proof.
  pose proof (demo_can_start 3 (fun _ _ => SigTerm)) as H1.
  pose proof (demo_comes_up 3 (fun _ _ => SigTerm)) as H2.
  assert (H3 : s_clock demo_server_state < 3 <= s_clock demo_server_state + 9) by (simpl; lia).
  assert (H4 : e_child_end (demo_server_env 3 (fun _ _ => SigTerm)) 100
                 (server_cmd "./sysstatd" Catalog.server_root_default 24242) = SigTerm) by reflexivity.
  split; [exact H1|]. split; [exact H2|]. split; [exact H3|]. split; [exact H4|].
  exact (start_server_sigterm_orphan _ _ _ _ _ _ H1 H2 H3 H4).
Defined.

Lemma start_server_pass_on_tenth_try_witness :
  can_start default_config Catalog.server_root_default (demo_server_env 10 (fun _ _ => ChildExits 0))
    demo_server_state demo_www /\
  comes_up_at (demo_server_env 10 (fun _ _ => ChildExits 0)) (s_clock demo_server_state + 10)
    (fixture_expectations demo_www) /\
  exists s', start_server default_config Catalog.server_root_default
               (demo_server_env 10 (fun _ _ => ChildExits 0)) demo_server_state =
    (Raise (SystemExit 0), s') /\ list.last s'.(s_trace) = Some (EvPrint MsgGaveUp).
Proof.
  pose proof (demo_can_start 10 (fun _ _ => ChildExits 0)) as H1.
  pose proof (demo_comes_up 10 (fun _ _ => ChildExits 0)) as H2.
  split; [exact H1|]. split; [exact H2|].
  exact (start_server_pass_on_tenth_try _ _ _ _ _ H1 H2).
Defined.


Lemma start_server_missing_exe_witness :
  "./sysstatd" ∉ (demo_state [] [] []).(s_exec) /\
  start_server default_config Catalog.server_root_default
    (demo_server_env 3 (fun _ _ => ChildExits 0)) (demo_state [] [] []) =
    (Raise (SystemExit (-1)),
     add_events [EvPrint MsgPreparing; EvPrint (MsgNoExecutable "./sysstatd")] (demo_state [] [] [])).
Proof.
  assert (H : "./sysstatd" ∉ (demo_state [] [] []).(s_exec)) by by_eval.
  split; [exact H|].
  exact (start_server_missing_exe default_config Catalog.server_root_default
           (demo_server_env 3 (fun _ _ => ChildExits 0)) (demo_state [] [] []) H).
Defined.

Lemma fixtures_roundtrip_witness :
  let e := demo_server_env 3 (fun _ _ => ChildExits 0) in
  let s := demo_server_state in
  let r := Catalog.server_root_default in
  r <> "" /\
  (dir_writable r s = true \/ (s.(s_dirs) !! r = None /\ s.(s_fs) !! r = None)) /\
  www_source (script_dir_of e.(e_file) e.(e_cwd)) <> fixture_path r "small" /\
  www_source (script_dir_of e.(e_file) e.(e_cwd)) <> fixture_path r "large" /\
  s.(s_fs) !! www_source (script_dir_of e.(e_file) e.(e_cwd)) = Some demo_www /\
  e.(e_srv_listening) 3 = true /\
  e.(e_srv_get) 3 "/loadavg" = Reply 200 demo_loadavg /\
  (10 <= Z.of_nat (String.length demo_loadavg))%Z /\
  e.(e_srv_get) 3 "/meminfo" = Reply 200 demo_meminfo /\
  (100 <= Z.of_nat (String.length demo_meminfo))%Z /\
  exists s' sf lf wf, prepare_files r e s = (Ok (sf, lf, wf), s') /\
    ((forall n, n ∈ ["small"; "large"; www_name] ->
        e.(e_srv_get) 3 ("/files/" +:+ n) =
          match s'.(s_fs) !! fixture_path r n with Some c => Reply 200 c | None => NoReply end) ->
     healthy_at e 3 (health_expectations sf lf wf) = true).
Proof.
  intros e s r.
  assert (H1 : r <> "") by discriminate.
  assert (H2 : dir_writable r s = true \/ (s.(s_dirs) !! r = None /\ s.(s_fs) !! r = None))
    by (right; split; reflexivity).
  assert (H3 : www_source (script_dir_of e.(e_file) e.(e_cwd)) <> fixture_path r "small") by by_eval.
  assert (H4 : www_source (script_dir_of e.(e_file) e.(e_cwd)) <> fixture_path r "large") by by_eval.
  assert (H5 : s.(s_fs) !! www_source (script_dir_of e.(e_file) e.(e_cwd)) = Some demo_www)
    by reflexivity.
  assert (H6 : e.(e_srv_listening) 3 = true) by reflexivity.
  assert (H7 : e.(e_srv_get) 3 "/loadavg" = Reply 200 demo_loadavg) by reflexivity.
  assert (H8 : (10 <= Z.of_nat (String.length demo_loadavg))%Z) by (vm_compute; discriminate).
  assert (H9 : e.(e_srv_get) 3 "/meminfo" = Reply 200 demo_meminfo) by reflexivity.
  assert (H10 : (100 <= Z.of_nat (String.length demo_meminfo))%Z) by (vm_compute; discriminate).
  do 10 (split; [assumption|]).
  exact (fixtures_roundtrip r demo_www e s e 3 demo_loadavg demo_meminfo
           H1 H2 H3 H4 H5 H6 H7 H8 H9 H10).
Defined.

End Supervisor.
