(* ===== verification/Client.v ===== *)
(** * Client role: load driver and results aggregator
    ([server_bench.py], lines 225-243 and 248-278)

    [start_wrk] runs the external load generator [wrk] for one scenario
    and reads the JSON result it leaves in [ssresults.json];
    [client_main] strips the trailing slashes of the URL, refuses to run
    on the server's host, runs every selected scenario in order, keeps
    each result under the scenario's name next to ["version"], and
    writes the report once, to [sysstatd.results.<pid>.json].

    Theorems: the slash-stripping loop terminates with no trailing slash
    and computes Python's [rstrip("/")];
    the host guard fires whenever the host name occurs in the URL and
    before any process is started; a scenario's failure never stops the
    batch, and the report only ever gains keys of known, selected
    scenarios; [start_wrk] returns exactly what [wrk] wrote and deletes
    the file, but leaves it behind when it cannot be parsed and returns a
    stale file when [wrk] writes none. *)

From stdpp Require Import base gmap strings list.
From Stdlib Require Import ZArith Ascii.
From S2P Require Import Prelude PyRuntime Catalog Options Supervisor.

Open Scope string_scope.
Open Scope py_scope.

Module Client.
Import Catalog Options Supervisor.

(** Lines 226-229: the [wrk] command line. *)
Definition wrk_cmd (script_dir url : string) (t : runconfig) : list string :=
  [wrk_exe; "-c"; py_str_int t.(nconnections); "-t"; py_str_int t.(nthreads);
   "-d"; t.(duration); "-s"; script_dir +:+ "/cs3214bench.lua"; url +:+ t.(path)].

(** Line 234. *)
Definition resfile : string := "ssresults.json".

(** Lines 237-239: launch [wrk] with [JSON_OUTPUT_FILE] and [JSON_LUA] in
    its environment and wait for it. *)
Definition run_wrk (cmd : list string) (luajson : string) : Py Z :=
  pid <- popen cmd [("JSON_OUTPUT_FILE", resfile); ("JSON_LUA", luajson)];;
  popen_wait pid.

(** Lines 225-243: [start_wrk(url, test)]. *)
Definition start_wrk (verbose : bool) (url : string) (t : runconfig) : Py json :=
  sd <- get_script_dir;;
  let cmd := wrk_cmd sd url t in
  (if verbose then print (MsgRunCommand cmd) else ret tt);;
  let luajson := sd +:+ "/JSON.lua" in
  readable <- os_access_R luajson;;
  py_assert readable;;
  _ <- run_wrk cmd luajson;;
  contents <- read_path resfile;;
  r <- json_load contents;;
  os_unlink resfile;;
  ret r.

(** Lines 250-251: [while url.endswith("/"): url = url[:-1]], with the
    length of the URL as fuel (each iteration removes one character). *)
Fixpoint strip_slashes_loop (fuel : nat) (url : string) : string :=
  match fuel with
  | O => url
  | S f => if py_endswith_char "/" url then strip_slashes_loop f (py_drop_last url) else url
  end.

Definition strip_slashes (url : string) : string := strip_slashes_loop (String.length url) url.

(** Lines 259-269: the loop over the selected scenarios. *)
Fixpoint client_loop (verbose : bool) (url : string) (names : list string)
    (results : gmap string json) : Py (gmap string json) :=
  match names with
  | [] => ret results
  | testname :: rest =>
      match testsbyname !! testname with
      | None => print (MsgTestNotFound testname);; client_loop verbose url rest results
      | Some test =>
          print (MsgRunningTest testname);;
          results' <- try_except (r <- start_wrk verbose url test;; ret (<[testname := r]> results))
                                 (fun x => print (MsgException x);; ret results);;
          client_loop verbose url rest results'
      end
  end.

(** Line 271. *)
Definition results_filename (pid : Z) : string :=
  "sysstatd.results." +:+ py_str_int pid +:+ ".json".

(** Line 258: [results = dict(version = VERSION)]. *)
Definition initial_results : gmap string json := {[ "version" := JStr VERSION ]}.

(** Lines 248-278: the client role. *)
Definition client_main (cfg : config) (url_arg : string) : Py unit :=
  let url := strip_slashes url_arg in
  e <- ask;;
  (if py_contains e.(e_hostname) url then print MsgSameHost;; sys_exit (-1) else ret tt);;
  raise_fd_limit;;
  results <- client_loop cfg.(cfg_verbose) url cfg.(cfg_teststorun) initial_results;;
  let ofilename := results_filename e.(e_pid) in
  print (MsgWritingResults ofilename);;
  json_dump_to ofilename results;;
  print (MsgSubmit ofilename).

(** ** Failure isolation *)

(** [wrk] always runs to completion (it is given a fixed duration). *)
Definition wrk_exits (e : env) : Prop :=
  forall pid sd url t, exists code, e.(e_child_end) pid (wrk_cmd sd url t) = ChildExits code.

#[export] Instance run_wrk_exc_only sd url t luajson :
  ExcOnly wrk_exits (run_wrk (wrk_cmd sd url t) luajson).
Proof.
  intros e s Hw. unfold run_wrk, bind.
  destruct (popen _ _ e s) as [r s1] eqn:E. unfold popen, wrk_cmd in E.
  case_bool_decide; simplify_eq; [|done].
  unfold popen_wait. simpl. rewrite lookup_insert_eq. simpl.
  destruct (Hw (s_next_pid s) sd url t) as [code Hc]. unfold wrk_cmd in Hc. by rewrite Hc.
Qed.

#[export] Instance start_wrk_exc_only v url t : ExcOnly wrk_exits (start_wrk v url t).
Proof. unfold start_wrk, get_script_dir, os_access_R. apply _. Qed.

(** One known scenario: the result is stored under its name, or the
    exception is reported and the results stay as they were. *)
Lemma run_one_test v url n t (results : gmap string json) e s :
  wrk_exits e ->
  exists (results' : gmap string json) s',
    try_except (r <- start_wrk v url t;; ret (<[n := r]> results))
               (fun x => print (MsgException x);; ret results) e s = (Ok results', s') /\
    (results' = results \/ exists r, results' = <[n := r]> results).
Proof.
  intros Hw. pose proof (start_wrk_exc_only v url t e s Hw) as Hx.
  unfold try_except, bind at 1.
  destruct (start_wrk v url t e s) as [[r|x|h] s1]; simpl in *; [| |done].
  - eexists _, _. split; [reflexivity|]. right. by eexists.
  - rewrite Hx. eexists _, _. split; [reflexivity|]. by left.
Qed.

(** C3 (failure isolation, report invariant): when [wrk] runs to
    completion, the loop over the selected scenarios always finishes,
    whatever fails inside a scenario (missing [JSON.lua], missing [wrk],
    no result file, unparsable JSON), and the only keys it adds or
    changes in the results are names that were selected and are in the
    catalog: unknown names are skipped and never appear. *)
Theorem client_loop_isolation verbose url names (results : gmap string json) e s :
  wrk_exits e ->
  exists results' s', client_loop verbose url names results e s = (Ok results', s') /\
    forall k, results' !! k <> results !! k -> k ∈ names /\ is_Some (testsbyname !! k).
Proof.
  intros Hw. revert results s.
  induction names as [|n ns IH]; intros results s; simpl.
  - eexists _, _. split; [reflexivity|]. done.
  - destruct (testsbyname !! n) as [t|] eqn:Hn.
    + destruct (run_one_test verbose url n t results e (add_event (EvPrint (MsgRunningTest n)) s) Hw)
        as (R1 & s1 & E1 & HR1).
      py_step by reflexivity. py_step by exact E1.
      destruct (IH R1 s1) as (R2 & s2 & E2 & H2).
      exists R2, s2. split; [done|]. intros k Hk.
      destruct (decide (k = n)) as [->|Hne]; [split; [set_solver | by rewrite Hn]|].
      assert (R1 !! k = results !! k) as HR.
      { destruct HR1 as [->|[r ->]]; [done | by rewrite lookup_insert_ne]. }
      rewrite <- HR in Hk. destruct (H2 k Hk). split; [set_solver|done].
    + py_step by reflexivity.
      destruct (IH results (add_event (EvPrint (MsgTestNotFound n)) s)) as (R2 & s2 & E2 & H2).
      exists R2, s2. split; [done|]. intros k Hk. destruct (H2 k Hk). split; [set_solver|done].
Qed.

(** ** What one run of [wrk] leaves and what [start_wrk] returns *)

(** The file system after [wrk] exits: its JSON output, if it wrote any. *)
Definition after_wrk (e : env) (pid : Z) (cmd : list string) (fs : gmap string string)
    : gmap string string :=
  match e.(e_child_output) pid cmd with
  | Some out => <[resfile := out]> fs
  | None => fs
  end.

Lemma run_wrk_run sd url t luajson e s code :
  wrk_exe ∈ s.(s_exec) ->
  e.(e_child_end) s.(s_next_pid) (wrk_cmd sd url t) = ChildExits code ->
  exists s', run_wrk (wrk_cmd sd url t) luajson e s = (Ok code, s') /\
    s'.(s_fs) = after_wrk e s.(s_next_pid) (wrk_cmd sd url t) s.(s_fs).
Proof.
  intros Hx Hc. unfold run_wrk.
  py_step by (unfold popen, wrk_cmd; cbv iota beta;
    rewrite bool_decide_eq_true_2; [reflexivity | exact Hx]).
  unfold popen_wait. simpl. rewrite lookup_insert_eq. simpl. unfold wrk_cmd in Hc. rewrite Hc.
  eexists. split; [reflexivity|]. unfold after_wrk, child_effect. simpl.
  by destruct (e_child_output _ _ _).
Qed.

Lemma start_wrk_run v url t e s code :
  wrk_exe ∈ s.(s_exec) ->
  is_Some (s.(s_fs) !! (script_dir_of e.(e_file) e.(e_cwd) +:+ "/JSON.lua")) ->
  e.(e_child_end) s.(s_next_pid) (wrk_cmd (script_dir_of e.(e_file) e.(e_cwd)) url t)
    = ChildExits code ->
  exists s2, start_wrk v url t e s =
    (contents <- read_path resfile;; r <- json_load contents;; os_unlink resfile;; ret r) e s2 /\
    s2.(s_fs) = after_wrk e s.(s_next_pid) (wrk_cmd (script_dir_of e.(e_file) e.(e_cwd)) url t)
                  s.(s_fs).
Proof.
  intros Hx Hl Hc.
  set (sd := script_dir_of e.(e_file) e.(e_cwd)) in *.
  assert (Hv : exists s1, (if v then print (MsgRunCommand (wrk_cmd sd url t)) else ret tt) e s
                          = (Ok tt, s1) /\ quiet s s1 /\ s1.(s_next_pid) = s.(s_next_pid)).
  { destruct v; eexists; (split; [reflexivity|]); by repeat split. }
  destruct Hv as (s1 & Ev & (F1 & _ & X1 & Ch1 & N1 & _) & _).
  unfold start_wrk, get_script_dir. py_step by reflexivity. fold sd.
  py_step by exact Ev. unfold os_access_R. py_step by reflexivity.
  rewrite F1, bool_decide_eq_true_2; [py_step by reflexivity | exact Hl].
  destruct (run_wrk_run sd url t (sd +:+ "/JSON.lua") e s1 code) as (s2 & E2 & F2);
    [by rewrite X1 | by rewrite N1 |].
  py_step by exact E2. eexists. split; [reflexivity|]. by rewrite F2, F1, N1.
Qed.

Lemma start_wrk_ok v url t e s code out j :
  wrk_exe ∈ s.(s_exec) ->
  is_Some (s.(s_fs) !! (script_dir_of e.(e_file) e.(e_cwd) +:+ "/JSON.lua")) ->
  e.(e_child_end) s.(s_next_pid) (wrk_cmd (script_dir_of e.(e_file) e.(e_cwd)) url t)
    = ChildExits code ->
  e.(e_child_output) s.(s_next_pid) (wrk_cmd (script_dir_of e.(e_file) e.(e_cwd)) url t)
    = Some out ->
  e.(e_json_load) out = Some j ->
  exists s', start_wrk v url t e s = (Ok j, s') /\ s'.(s_fs) !! resfile = None.
Proof.
  intros Hx Hl Hc Ho Hj.
  destruct (start_wrk_run v url t e s code Hx Hl Hc) as (s2 & E & F2).
  unfold after_wrk in F2. rewrite Ho in F2. rewrite E.
  py_step by (apply read_path_ok; rewrite F2; apply lookup_insert_eq).
  py_step by (unfold json_load; rewrite Hj; reflexivity).
  unfold os_unlink. py_step by (rewrite F2, lookup_insert_eq; reflexivity).
  eexists. split; [reflexivity|]. simpl. apply lookup_delete_eq.
Qed.

(** C13 (functional): when [wrk] writes a parsable result, [start_wrk]
    returns exactly the parsed value, unmodified, and deletes the
    transient file. *)
Theorem start_wrk_result v url t e s code out j :
  wrk_exe ∈ s.(s_exec) ->
  is_Some (s.(s_fs) !! (script_dir_of e.(e_file) e.(e_cwd) +:+ "/JSON.lua")) ->
  e.(e_child_end) s.(s_next_pid) (wrk_cmd (script_dir_of e.(e_file) e.(e_cwd)) url t)
    = ChildExits code ->
  e.(e_child_output) s.(s_next_pid) (wrk_cmd (script_dir_of e.(e_file) e.(e_cwd)) url t)
    = Some out ->
  e.(e_json_load) out = Some j ->
  exists s', start_wrk v url t e s = (Ok j, s') /\ s'.(s_fs) !! resfile = None.
Proof. apply start_wrk_ok. Qed.

(** C14 (divergence: transient file not cleaned up): when the result
    [wrk] wrote cannot be parsed, [json.load] raises before
    [os.unlink], so the scenario is skipped but [ssresults.json] stays
    on disk. *)
Theorem start_wrk_parse_failure_keeps_file v url t e s code out :
  wrk_exe ∈ s.(s_exec) ->
  is_Some (s.(s_fs) !! (script_dir_of e.(e_file) e.(e_cwd) +:+ "/JSON.lua")) ->
  e.(e_child_end) s.(s_next_pid) (wrk_cmd (script_dir_of e.(e_file) e.(e_cwd)) url t)
    = ChildExits code ->
  e.(e_child_output) s.(s_next_pid) (wrk_cmd (script_dir_of e.(e_file) e.(e_cwd)) url t)
    = Some out ->
  e.(e_json_load) out = None ->
  exists s', start_wrk v url t e s = (Raise (Exc ValueError), s') /\ s'.(s_fs) !! resfile = Some out.
Proof.
  intros Hx Hl Hc Ho Hj.
  destruct (start_wrk_run v url t e s code Hx Hl Hc) as (s2 & E & F2).
  unfold after_wrk in F2. rewrite Ho in F2. rewrite E.
  py_step by (apply read_path_ok; rewrite F2; apply lookup_insert_eq).
  erewrite bind_Raise by (unfold json_load; rewrite Hj; reflexivity).
  eexists. split; [reflexivity|]. by rewrite F2, lookup_insert_eq.
Qed.

(** C15 (code bug: stale result): the result file has a fixed name and
    is not removed before [wrk] runs, so when [wrk] writes no result but
    a parsable [ssresults.json] is already there (left by an earlier,
    interrupted run), [start_wrk] returns that stale result as this
    scenario's. *)
Theorem start_wrk_stale_result v url t e s code old j :
  wrk_exe ∈ s.(s_exec) ->
  is_Some (s.(s_fs) !! (script_dir_of e.(e_file) e.(e_cwd) +:+ "/JSON.lua")) ->
  e.(e_child_end) s.(s_next_pid) (wrk_cmd (script_dir_of e.(e_file) e.(e_cwd)) url t)
    = ChildExits code ->
  e.(e_child_output) s.(s_next_pid) (wrk_cmd (script_dir_of e.(e_file) e.(e_cwd)) url t) = None ->
  s.(s_fs) !! resfile = Some old ->
  e.(e_json_load) old = Some j ->
  exists s', start_wrk v url t e s = (Ok j, s').
Proof.
  intros Hx Hl Hc Ho Hold Hj.
  destruct (start_wrk_run v url t e s code Hx Hl Hc) as (s2 & E & F2).
  unfold after_wrk in F2. rewrite Ho in F2. rewrite E.
  py_step by (apply read_path_ok; by rewrite F2).
  py_step by (unfold json_load; rewrite Hj; reflexivity).
  unfold os_unlink. py_step by (rewrite F2, Hold; reflexivity).
  by eexists.
Qed.

(** ** URL normalisation and the host guard *)

Lemma strip_slashes_loop_spec fuel url :
  String.length url <= fuel ->
  py_endswith_char "/" (strip_slashes_loop fuel url) = false /\
  exists k, url = strip_slashes_loop fuel url +:+ str_repeat k "/".
Proof.
  revert url. induction fuel as [|f IH]; intros url Hlen; simpl.
  - destruct url; [|simpl in Hlen; lia]. split; [done|]. by exists 0.
  - destruct (py_endswith_char "/" url) eqn:He.
    + pose proof (py_endswith_char_snoc _ _ He) as Hurl.
      assert (String.length (py_drop_last url) <= f).
      { rewrite Hurl, string_app_length in Hlen. simpl in Hlen. lia. }
      destruct (IH (py_drop_last url)) as [Hend [k Hk]]; [done|].
      split; [done|]. exists (S k). rewrite Hurl at 1. rewrite Hk at 1.
      rewrite string_app_assoc. f_equal. apply str_repeat_snoc.
    + split; [done|]. exists 0. simpl. by rewrite string_app_nil_r.
Qed.

(** C22 (termination): the loop [while url.endswith("/"): url = url[:-1]]
    stops within [len(url)] iterations, on a URL that no longer ends
    with "/", and what it removed is a run of slashes. *)
Theorem strip_slashes_spec url :
  py_endswith_char "/" (strip_slashes url) = false /\
  exists k, url = strip_slashes url +:+ str_repeat k "/".
Proof. by apply strip_slashes_loop_spec. Qed.

Lemma strip_slashes_loop_rstrip fuel url :
  String.length url <= fuel -> strip_slashes_loop fuel url = py_rstrip "/" url.
Proof.
  revert url. induction fuel as [|f IH]; intros url Hlen; simpl.
  - by destruct url; [|simpl in Hlen; lia].
  - destruct (py_endswith_char "/" url) eqn:He; [|by rewrite py_rstrip_no_end].
    pose proof (py_endswith_char_snoc _ _ He) as Hurl.
    rewrite Hurl at 2. rewrite py_rstrip_snoc. apply IH.
    rewrite Hurl, string_app_length in Hlen. simpl in Hlen. lia.
Qed.


(** C10 (safety, host guard): when the machine's host name occurs
    anywhere in the normalised URL, the client role prints a warning
    and exits with -1 before doing anything else: no descriptor limit
    change, no process, no file.  The test is a substring test, so it
    also refuses a URL where the host name is only part of another
    host's name. *)
Theorem client_same_host_refused cfg url e s :
  py_contains e.(e_hostname) (strip_slashes url) = true ->
  client_main cfg url e s = (Raise (SystemExit (-1)), add_event (EvPrint MsgSameHost) s).
Proof.
  intros H. unfold client_main. py_step by reflexivity. rewrite H. reflexivity.
Qed.

(** ** The whole client role *)

#[export] Instance start_wrk_dirs_fixed v url t : Stable dirs_fixed (start_wrk v url t).
Proof. unfold start_wrk, run_wrk, get_script_dir, os_access_R. apply _. Qed.

(** The client role launches only [wrk]s, each with a fresh pid. *)
#[export] Instance start_wrk_fresh v url t : Stable keeps_fresh (start_wrk v url t).
Proof. unfold start_wrk, run_wrk, get_script_dir, os_access_R. apply _. Qed.

#[export] Instance client_loop_fresh v url names results :
  Stable keeps_fresh (client_loop v url names results).
Proof.
  revert results. induction names as [|n names IH]; intros results; simpl; [apply _|].
  destruct (testsbyname !! n); apply _.
Qed.

#[export] Instance client_main_fresh cfg url : Stable keeps_fresh (client_main cfg url).
Proof. unfold client_main. apply bind_stable; [apply _ | apply _ | intros e]. apply _. Qed.

(** After the guard: raise the limit, run the loop, write the report. *)
Lemma client_main_run cfg url e s :
  py_contains e.(e_hostname) (strip_slashes url) = false ->
  exists s1, raise_fd_limit e s = (Ok tt, s1) /\
    client_main cfg url e s =
      (results <- client_loop cfg.(cfg_verbose) (strip_slashes url) cfg.(cfg_teststorun)
                    initial_results;;
       print (MsgWritingResults (results_filename e.(e_pid)));;
       json_dump_to (results_filename e.(e_pid)) results;;
       print (MsgSubmit (results_filename e.(e_pid)))) e s1.
Proof.
  intros H. destruct (raise_fd_limit_run e s) as (s1 & E1 & _).
  exists s1. split; [done|]. unfold client_main.
  py_step by reflexivity. rewrite H. py_step by reflexivity. by py_step by exact E1.
Qed.

Lemma report_written (results : gmap string json) fname e s :
  dir_writable (dirname fname) s = true ->
  exists s', (print (MsgWritingResults fname);; json_dump_to fname results;;
              print (MsgSubmit fname)) e s = (Ok tt, s') /\
             s'.(s_fs) !! fname = Some (e.(e_json_dump) results).
Proof.
  intros Hw. py_step by reflexivity.
  py_step by (unfold json_dump_to; apply write_path_ok; exact Hw).
  eexists. split; [reflexivity|]. simpl. apply lookup_insert_eq.
Qed.

(** Selecting only an unknown scenario, e.g. [-t doesnotexist], runs no
    load generator and writes a report that holds nothing but the
    version. *)
Lemma client_unknown_test_report cfg url e s :
  cfg.(cfg_teststorun) = ["doesnotexist"] ->
  py_contains e.(e_hostname) (strip_slashes url) = false ->
  dir_writable (dirname (results_filename e.(e_pid))) s = true ->
  exists s', client_main cfg url e s = (Ok tt, s') /\
    s'.(s_fs) !! results_filename e.(e_pid) = Some (e.(e_json_dump) initial_results) /\
    s'.(s_children) = s.(s_children).
Proof.
  intros Hsel Hhost Hw.
  destruct (client_main_run cfg url e s Hhost) as (s1 & E1 & ->).
  destruct (raise_fd_limit_run e s) as (s1' & E1' & _ & _ & _ & D1 & _ & Ch1 & _).
  rewrite E1 in E1'. injection E1' as <-.
  rewrite Hsel. simpl.
  assert (Hnf : testsbyname !! "doesnotexist" = None) by reflexivity.
  rewrite Hnf. py_step by reflexivity.
  destruct (report_written initial_results (results_filename e.(e_pid)) e
              (add_event (EvPrint (MsgTestNotFound "doesnotexist")) s1)) as (s2 & E2 & F2).
  { unfold dir_writable. simpl. by rewrite D1. }
  pose proof (stable (R := procs_fixed)
    (m := print (MsgWritingResults (results_filename e.(e_pid)));;
          json_dump_to (results_filename e.(e_pid)) initial_results;;
          print (MsgSubmit (results_filename e.(e_pid))))
    e (add_event (EvPrint (MsgTestNotFound "doesnotexist")) s1)) as [Ch2 _].
  rewrite E2 in Ch2 |- *. exists s2. split; [done|]. split; [done|].
  simpl in Ch2. by rewrite Ch2, Ch1.
Qed.

(** C11 (end to end): selecting [loadavg40] against a healthy server,
    with [wrk] writing a parsable result, gives a report that maps
    ["loadavg40"] to exactly the value [wrk] produced, next to the
    version. *)
Theorem client_loadavg40_report cfg url e s code out j :
  cfg.(cfg_teststorun) = ["loadavg40"] ->
  py_contains e.(e_hostname) (strip_slashes url) = false ->
  wrk_exe ∈ s.(s_exec) ->
  is_Some (s.(s_fs) !! (script_dir_of e.(e_file) e.(e_cwd) +:+ "/JSON.lua")) ->
  e.(e_child_end) s.(s_next_pid)
     (wrk_cmd (script_dir_of e.(e_file) e.(e_cwd)) (strip_slashes url) loadavg40) = ChildExits code ->
  e.(e_child_output) s.(s_next_pid)
     (wrk_cmd (script_dir_of e.(e_file) e.(e_cwd)) (strip_slashes url) loadavg40) = Some out ->
  e.(e_json_load) out = Some j ->
  dir_writable (dirname (results_filename e.(e_pid))) s = true ->
  exists s', client_main cfg url e s = (Ok tt, s') /\
    s'.(s_fs) !! results_filename e.(e_pid) =
      Some (e.(e_json_dump) (<["loadavg40" := j]> initial_results)).
Proof.
  intros Hsel Hhost Hx Hl Hc Ho Hj Hw.
  destruct (client_main_run cfg url e s Hhost) as (s1 & E1 & ->).
  destruct (raise_fd_limit_run e s) as (s1' & E1' & _ & _ & F1 & D1 & X1 & _ & N1 & _).
  rewrite E1 in E1'. injection E1' as <-.
  set (s1p := add_event (EvPrint (MsgRunningTest "loadavg40")) s1).
  destruct (start_wrk_ok cfg.(cfg_verbose) (strip_slashes url) loadavg40 e s1p code out j)
    as (s2 & E2 & _); simpl; [by rewrite X1 | by rewrite F1 | by rewrite N1 | by rewrite N1 | done |].
  assert (Hloop : client_loop cfg.(cfg_verbose) (strip_slashes url) ["loadavg40"] initial_results e s1
                  = (Ok (<["loadavg40" := j]> initial_results), s2)).
  { simpl. assert (Hf : testsbyname !! "loadavg40" = Some loadavg40) by reflexivity.
    rewrite Hf. py_step by reflexivity. fold s1p.
    py_step by (apply try_except_Ok; by py_step by exact E2). reflexivity. }
  rewrite Hsel. py_step by exact Hloop.
  destruct (report_written (<["loadavg40" := j]> initial_results) (results_filename e.(e_pid)) e s2)
    as (s3 & E3 & F3).
  { pose proof (stable (R := dirs_fixed) (m := start_wrk cfg.(cfg_verbose) (strip_slashes url) loadavg40)
                  e s1p) as D2.
    rewrite E2 in D2. unfold dir_writable, dirs_fixed in *. simpl in D2. by rewrite D2, D1. }
  rewrite E3. by exists s3.
Qed.

(** ** An example client machine

    The harness of [demo_env] in [/opt/bench] with [JSON.lua] beside it
    and [wrk] installed; the working directory is writable.  [wrk] always
    exits with 0 and leaves [out] in [ssresults.json] (or nothing);
    [demo_load] parses the two arrays used below and nothing else. *)

Definition demo_wrk_out : string := "[1,2,3]".
Definition demo_wrk_json : json := JArr [JNum 1; JNum 2; JNum 3].

Definition demo_load (c : string) : option json :=
  if String.eqb c demo_wrk_out then Some demo_wrk_json
  else if String.eqb c "[7]" then Some (JArr [JNum 7]) else None.

Definition demo_client_env (out : option string) : env :=
  demo_env (Some ([], ["http://maple.rlogin:12306/"])) (fun _ => false) (fun _ _ => NoReply)
    (fun _ _ => ChildExits 0) (fun _ _ => out) demo_load.

Definition demo_client_state (fs : list (string * string)) : state :=
  demo_state (("/opt/bench/JSON.lua", "-- json") :: fs) [(".", true)] [wrk_exe].

Definition demo_url : string := "http://maple.rlogin:12306".

(** ** Witnesses *)

Lemma client_loop_isolation_witness :
  wrk_exits (demo_client_env (Some demo_wrk_out)) /\
  exists results' s',
    client_loop false demo_url ["loadavg40"; "nosuch"] initial_results
      (demo_client_env (Some demo_wrk_out)) (demo_client_state []) = (Ok results', s') /\
    forall k, results' !! k <> initial_results !! k ->
      k ∈ ["loadavg40"; "nosuch"] /\ is_Some (testsbyname !! k).
Proof.
  assert (H : wrk_exits (demo_client_env (Some demo_wrk_out)))
    by (intros pid sd url t; eexists; reflexivity).
  split; [exact H|].
  exact (client_loop_isolation false demo_url ["loadavg40"; "nosuch"] initial_results
           (demo_client_env (Some demo_wrk_out)) (demo_client_state []) H).
Defined.

Lemma start_wrk_result_witness :
  let e := demo_client_env (Some demo_wrk_out) in
  let s := demo_client_state [] in
  wrk_exe ∈ s.(s_exec) /\
  is_Some (s.(s_fs) !! (script_dir_of e.(e_file) e.(e_cwd) +:+ "/JSON.lua")) /\
  e.(e_child_end) s.(s_next_pid) (wrk_cmd (script_dir_of e.(e_file) e.(e_cwd)) demo_url loadavg40)
    = ChildExits 0 /\
  e.(e_child_output) s.(s_next_pid) (wrk_cmd (script_dir_of e.(e_file) e.(e_cwd)) demo_url loadavg40)
    = Some demo_wrk_out /\
  e.(e_json_load) demo_wrk_out = Some demo_wrk_json /\
  exists s', start_wrk false demo_url loadavg40 e s = (Ok demo_wrk_json, s') /\
             s'.(s_fs) !! resfile = None.
Proof.
  intros e s.
  assert (H1 : wrk_exe ∈ s.(s_exec)) by by_eval.
  assert (H2 : is_Some (s.(s_fs) !! (script_dir_of e.(e_file) e.(e_cwd) +:+ "/JSON.lua")))
    by by_eval.
  split; [exact H1|]. split; [exact H2|]. split; [reflexivity|]. split; [reflexivity|].
  split; [reflexivity|].
  exact (start_wrk_result false demo_url loadavg40 e s 0 demo_wrk_out demo_wrk_json
           H1 H2 eq_refl eq_refl eq_refl).
Defined.

Lemma start_wrk_parse_failure_keeps_file_witness :
  let e := demo_client_env (Some "garbage") in
  let s := demo_client_state [] in
  wrk_exe ∈ s.(s_exec) /\
  is_Some (s.(s_fs) !! (script_dir_of e.(e_file) e.(e_cwd) +:+ "/JSON.lua")) /\
  e.(e_child_output) s.(s_next_pid) (wrk_cmd (script_dir_of e.(e_file) e.(e_cwd)) demo_url loadavg40)
    = Some "garbage" /\
  e.(e_json_load) "garbage" = None /\
  exists s', start_wrk false demo_url loadavg40 e s = (Raise (Exc ValueError), s') /\
             s'.(s_fs) !! resfile = Some "garbage".
Proof.
  intros e s.
  assert (H1 : wrk_exe ∈ s.(s_exec)) by by_eval.
  assert (H2 : is_Some (s.(s_fs) !! (script_dir_of e.(e_file) e.(e_cwd) +:+ "/JSON.lua")))
    by by_eval.
  split; [exact H1|]. split; [exact H2|]. split; [reflexivity|]. split; [reflexivity|].
  exact (start_wrk_parse_failure_keeps_file false demo_url loadavg40 e s 0 "garbage"
           H1 H2 eq_refl eq_refl eq_refl).
Defined.

Lemma start_wrk_stale_result_witness :
  let e := demo_client_env None in
  let s := demo_client_state [(resfile, "[7]")] in
  wrk_exe ∈ s.(s_exec) /\
  is_Some (s.(s_fs) !! (script_dir_of e.(e_file) e.(e_cwd) +:+ "/JSON.lua")) /\
  e.(e_child_output) s.(s_next_pid) (wrk_cmd (script_dir_of e.(e_file) e.(e_cwd)) demo_url loadavg40)
    = None /\
  s.(s_fs) !! resfile = Some "[7]" /\
  exists s', start_wrk false demo_url loadavg40 e s = (Ok (JArr [JNum 7]), s').
Proof.
  intros e s.
  assert (H1 : wrk_exe ∈ s.(s_exec)) by by_eval.
  assert (H2 : is_Some (s.(s_fs) !! (script_dir_of e.(e_file) e.(e_cwd) +:+ "/JSON.lua")))
    by by_eval.
  assert (H3 : s.(s_fs) !! resfile = Some "[7]") by by_eval.
  split; [exact H1|]. split; [exact H2|]. split; [reflexivity|]. split; [exact H3|].
  exact (start_wrk_stale_result false demo_url loadavg40 e s 0 "[7]" (JArr [JNum 7])
           H1 H2 eq_refl eq_refl H3 eq_refl).
Defined.

(** The client started on [hickory] with the URL of [hickory2] is
    refused too: "hickory" is a substring of that URL. *)
Lemma client_same_host_refused_witness :
  py_contains "hickory" (strip_slashes "http://hickory2.rlogin:12306/") = true /\
  client_main default_config "http://hickory2.rlogin:12306/" (demo_client_env None)
    (demo_client_state []) =
    (Raise (SystemExit (-1)), add_event (EvPrint MsgSameHost) (demo_client_state [])).
Proof.
  assert (H : py_contains (e_hostname (demo_client_env None))
                (strip_slashes "http://hickory2.rlogin:12306/") = true) by by_eval.
  split; [exact H|].
  exact (client_same_host_refused default_config "http://hickory2.rlogin:12306/"
           (demo_client_env None) (demo_client_state []) H).
Defined.

Definition demo_client_cfg : config :=
  {| cfg_server_exe := server_exe_default; cfg_server_root := server_root_default;
     cfg_verbose := false; cfg_teststorun := ["loadavg40"] |}.

Lemma client_loadavg40_report_witness :
  let e := demo_client_env (Some demo_wrk_out) in
  let s := demo_client_state [] in
  let url := "http://maple.rlogin:12306/" in
  py_contains e.(e_hostname) (strip_slashes url) = false /\
  wrk_exe ∈ s.(s_exec) /\
  is_Some (s.(s_fs) !! (script_dir_of e.(e_file) e.(e_cwd) +:+ "/JSON.lua")) /\
  dir_writable (dirname (results_filename e.(e_pid))) s = true /\
  exists s', client_main demo_client_cfg url e s = (Ok tt, s') /\
    s'.(s_fs) !! results_filename e.(e_pid) =
      Some (e.(e_json_dump) (<["loadavg40" := demo_wrk_json]> initial_results)).
Proof.
  intros e s url.
  assert (H0 : py_contains e.(e_hostname) (strip_slashes url) = false) by by_eval.
  assert (H1 : wrk_exe ∈ s.(s_exec)) by by_eval.
  assert (H2 : is_Some (s.(s_fs) !! (script_dir_of e.(e_file) e.(e_cwd) +:+ "/JSON.lua")))
    by by_eval.
  assert (H3 : dir_writable (dirname (results_filename e.(e_pid))) s = true) by by_eval.
  split; [exact H0|]. split; [exact H1|]. split; [exact H2|]. split; [exact H3|].
  exact (client_loadavg40_report demo_client_cfg url e s 0 demo_wrk_out demo_wrk_json
           eq_refl H0 H1 H2 eq_refl eq_refl eq_refl H3).
Defined.

End Client.
