(* ===== verification/Main.v ===== *)
(** * The harness as a program ([server_bench.py], module level)

    [main] is what the module does when it runs: parse the command line,
    apply the options, and dispatch on the positional argument: none
    starts the server role, a URL starts the client role (lines 96-122
    and 245-278).  [run_harness] runs it as a process: the atexit
    handlers run at exit and the exit status is computed.

    Theorems: the exit statuses of the help option and of a bad option
    (1, not 0 and 2 as the usage text and spec promise); the server role
    never leaves the server running after a normal, [sys.exit] or
    exception exit; a wrong answer from the server exits with 255 and
    kills it; a client run with an unknown scenario exits with 0; [-l]
    lists the catalog and exits with 0; the process table stays well
    formed over a whole run in either role. *)

From stdpp Require Import base gmap strings list.
From Stdlib Require Import ZArith Ascii.
From S2P Require Import Prelude PyRuntime Catalog Options Fixtures HealthCheck Supervisor Client.

Open Scope string_scope.
Open Scope py_scope.

Module Main.
Import Catalog Options Fixtures HealthCheck Supervisor Client.

(** Lines 96-122 and 245-278. *)
Definition main : Py unit :=
  r <- parse_args;;
  let '(opts, args) := r in
  cfg <- process_opts default_config opts;;
  match args with
  | [] => start_server cfg cfg.(cfg_server_root)
  | url :: _ => client_main cfg url
  end.

Definition run_harness (e : env) (s : state) : proc_end * state :=
  run_process run_handler main e s.

(** ** Frame of the option handling *)

#[export] Instance listtests_procs_fixed : Stable procs_fixed listtests.
Proof. unfold listtests. simpl. apply _. Qed.

#[export] Instance process_opt_procs_fixed c o a : Stable procs_fixed (process_opt c o a).
Proof. unfold process_opt, usage. apply _. Qed.

#[export] Instance process_opts_procs_fixed c opts : Stable procs_fixed (process_opts c opts).
Proof.
  revert c. induction opts as [|[o a] opts IH]; intros c; simpl; apply _.
Qed.

#[export] Instance parse_args_procs_fixed : Stable procs_fixed parse_args.
Proof.
  unfold parse_args, usage. apply bind_stable; [apply _ | apply _ |].
  intros e. destruct (e_getopt e); apply _.
Qed.

(** ** Runs of the whole program *)

Lemma main_parsed e s opts args :
  e.(e_getopt) = Some (opts, args) ->
  main e s = (cfg <- process_opts default_config opts;;
              match args with
              | [] => start_server cfg cfg.(cfg_server_root)
              | url :: _ => client_main cfg url
              end) e s.
Proof.
  intros He. unfold main.
  py_step by (unfold parse_args, bind, ask; simpl; rewrite He; reflexivity). done.
Qed.

Lemma run_harness_raise e s x s' :
  main e s = (Raise x, s') -> fst (run_harness e s) = ProcExit (exit_status (Raise x)).
Proof. intros H. unfold run_harness, run_process. by rewrite H. Qed.

(** C16 (divergence: help): [-h] does not print the help and exit with
    0 as its usage text says: [usage()] fails with [NameError] on the
    undefined global [config], and the harness dies with status 1. *)
Theorem harness_help_exit_status e s arg opts args :
  e.(e_getopt) = Some (("-h", arg) :: opts, args) ->
  fst (run_harness e s) = ProcExit 1.
Proof.
  intros He. apply (run_harness_raise e s (Exc NameError) s).
  rewrite (main_parsed e s _ _ He). by rewrite (bind_Raise _ _ _ _ s (Exc NameError)).
Qed.

(** C17: An unknown option makes [getopt] fail; the handler prints the error
    and calls [usage()], whose [NameError] ends the harness with status
    1, so the intended [sys.exit(2)] is never reached. *)
Theorem harness_getopt_error_exit_status e s :
  e.(e_getopt) = None -> fst (run_harness e s) = ProcExit 1.
Proof.
  intros He. apply (run_harness_raise e s (Exc NameError) (add_event (EvPrint MsgGetoptError) s)).
  unfold main. by rewrite (bind_Raise _ _ _ _ _ (Exc NameError) (parse_args_getopt_error e s He)).
Qed.

(** C28 (functional): [-l] prints the description of every test of the
    catalog, in catalog order, and the harness exits with status 0
    without starting either role. *)
Theorem harness_list_tests e s arg opts args :
  e.(e_getopt) = Some (("-l", arg) :: opts, args) ->
  fst (run_harness e s) = ProcExit 0 /\
  exists s', main e s = (Raise (SystemExit 0), s') /\
             s'.(s_trace) = (s.(s_trace) ++ test_listing)%list /\
             s'.(s_children) = s.(s_children) /\ s'.(s_fs) = s.(s_fs).
Proof.
  intros He.
  assert (Hm : main e s = (Raise (SystemExit 0), add_events test_listing s)).
  { rewrite (main_parsed e s _ _ He). apply bind_Raise, process_opts_list. }
  split; [by rewrite (run_harness_raise e s _ _ Hm)|].
  exists (add_events test_listing s). split; [exact Hm|].
  split; [apply add_events_trace|].
  pose proof (stable (R := procs_fixed) (m := process_opts default_config (("-l", arg) :: opts)) e s)
    as [Hc _].
  rewrite process_opts_list in Hc. split; [exact Hc | apply add_events_fs].
Qed.

#[export] Instance main_fresh : Stable keeps_fresh main.
Proof. unfold main. apply bind_stable; [apply _ | apply _ | intros [opts [|url args]]]; apply _. Qed.


(** The server role keeps every running child registered. *)
Lemma main_server_role_registered e s opts :
  e.(e_getopt) = Some (opts, []) -> registered s -> registered (snd (main e s)).
Proof.
  intros He Hreg. rewrite (main_parsed e s _ _ He).
  pose proof (stable (R := procs_fixed) (m := process_opts default_config opts) e s) as Hp.
  destruct (process_opts default_config opts e s) as [[cfg|x|h] s1] eqn:E; simpl in Hp.
  - rewrite (bind_Ok _ _ _ _ _ _ E).
    apply (stable (R := keeps_registered) (m := start_server cfg (cfg_server_root cfg))).
    by apply (procs_fixed_keeps s s1).
  - rewrite (bind_Raise _ _ _ _ _ _ E). by apply (procs_fixed_keeps s s1).
  - rewrite (bind_Halt _ _ _ _ _ _ E). by apply (procs_fixed_keeps s s1).
Qed.

(** C1 (safety, whole program): started without a URL, whatever the
    options, the server, the health check and the signals do, the harness
    never exits normally, through [sys.exit] or through an uncaught
    exception while a child process it started is still running. *)
Theorem harness_server_role_no_orphan e s opts :
  e.(e_getopt) = Some (opts, []) -> registered s ->
  match run_harness e s with
  | (ProcExit _, s') => map_Forall (fun _ c => c.(c_status) <> Running) s'.(s_children)
  | _ => True
  end.
Proof. intros He Hreg. apply exit_kills_registered, (main_server_role_registered e s opts He Hreg). Qed.

(** C8 (exit status of a wrong answer): with the default options, a
    server whose first answer is wrong ends the harness with status 255
    ([sys.exit(-1)] modulo 256) after its cleanup killed the server. *)
Theorem harness_wrong_answer_exit e s w :
  e.(e_getopt) = Some ([], []) ->
  can_start default_config server_root_default e s w ->
  health_verdict e (S s.(s_clock)) (fixture_expectations w) = Raise (SystemExit (-1)) ->
  registered s ->
  exists s', run_harness e s = (ProcExit 255, s') /\
             map_Forall (fun _ c => c.(c_status) <> Running) s'.(s_children).
Proof.
  intros He Hcan Hbad Hreg.
  pose proof (exit_kills_registered main e s (main_server_role_registered e s [] He Hreg)) as Hno.
  destruct (start_server_wrong_answer default_config server_root_default e s w Hcan Hbad)
    as (s1 & E1).
  assert (Hm : main e s = (Raise (SystemExit (-1)), s1)).
  { rewrite (main_parsed e s _ _ He). py_step by reflexivity. exact E1. }
  unfold run_harness, run_process in *. rewrite Hm in Hno |- *. by eexists.
Qed.

(** C12 (end to end, exit status): [-t doesnotexist URL] runs no
    scenario, writes the version-only report and exits with 0. *)
Theorem harness_unknown_test_exit e s url :
  e.(e_getopt) = Some ([("-t", "doesnotexist")], [url]) ->
  py_contains e.(e_hostname) (strip_slashes url) = false ->
  dir_writable (dirname (results_filename e.(e_pid))) s = true ->
  fst (run_harness e s) = ProcExit 0 /\
  exists s', main e s = (Ok tt, s') /\
    s'.(s_fs) !! results_filename e.(e_pid) = Some (e.(e_json_dump) initial_results).
Proof.
  intros He Hhost Hw.
  destruct (client_unknown_test_report
              {| cfg_server_exe := server_exe_default; cfg_server_root := server_root_default;
                 cfg_verbose := false; cfg_teststorun := ["doesnotexist"] |} url e s)
    as (s1 & E1 & F1 & _); [done..|].
  assert (Hm : main e s = (Ok tt, s1)).
  { rewrite (main_parsed e s _ _ He). py_step by reflexivity. exact E1. }
  unfold run_harness, run_process. rewrite Hm. split; [done|]. by exists s1.
Qed.

(** ** Witnesses *)

Definition demo_cli_env (getopt : option (list (string * string) * list string)) : env :=
  demo_env getopt (fun _ => false) (fun _ _ => NoReply) (fun _ _ => ChildExits 0)
    (fun _ _ => None) (fun _ => None).

Lemma harness_help_exit_status_witness :
  e_getopt (demo_cli_env (Some ([("-h", "")], []))) = Some ([("-h", "")], []) /\
  fst (run_harness (demo_cli_env (Some ([("-h", "")], []))) (demo_state [] [] [])) = ProcExit 1.
Proof.
  split; [reflexivity|].
  exact (harness_help_exit_status (demo_cli_env (Some ([("-h", "")], []))) (demo_state [] [] [])
           "" [] [] eq_refl).
Defined.

Lemma harness_getopt_error_exit_status_witness :
  e_getopt (demo_cli_env None) = None /\
  fst (run_harness (demo_cli_env None) (demo_state [] [] [])) = ProcExit 1.
Proof.
  split; [reflexivity|].
  exact (harness_getopt_error_exit_status (demo_cli_env None) (demo_state [] [] []) eq_refl).
Defined.

Lemma harness_server_role_no_orphan_witness :
  e_getopt (demo_server_env 3 (fun _ _ => ChildExits 0)) = Some ([], []) /\
  registered demo_server_state /\
  match run_harness (demo_server_env 3 (fun _ _ => ChildExits 0)) demo_server_state with
  | (ProcExit _, s') => map_Forall (fun _ c => c.(c_status) <> Running) s'.(s_children)
  | _ => True
  end.
Proof.
  assert (H : registered demo_server_state) by apply map_Forall_empty.
  split; [reflexivity|]. split; [exact H|].
  exact (harness_server_role_no_orphan (demo_server_env 3 (fun _ _ => ChildExits 0))
           demo_server_state [] eq_refl H).
Defined.

(** A server that answers 404 to everything: the first health check
    already exits with [SystemExit(-1)]. *)
Definition demo_404_env : env :=
  demo_env (Some ([], [])) (fun _ => true) (fun _ _ => Reply 404 "Not Found")
    (fun _ _ => Forever) (fun _ _ => None) (fun _ => None).

Lemma harness_wrong_answer_exit_witness :
  e_getopt demo_404_env = Some ([], []) /\
  can_start default_config server_root_default demo_404_env demo_server_state demo_www /\
  health_verdict demo_404_env (S demo_server_state.(s_clock)) (fixture_expectations demo_www) =
    Raise (SystemExit (-1)) /\
  registered demo_server_state /\
  exists s', run_harness demo_404_env demo_server_state = (ProcExit 255, s') /\
             map_Forall (fun _ c => c.(c_status) <> Running) s'.(s_children).
Proof.
  assert (H1 : can_start default_config server_root_default demo_404_env demo_server_state demo_www)
    by (unfold can_start; by_eval).
  assert (H2 : health_verdict demo_404_env (S demo_server_state.(s_clock))
                 (fixture_expectations demo_www) = Raise (SystemExit (-1)))
    by (vm_compute; reflexivity).
  assert (H3 : registered demo_server_state) by apply map_Forall_empty.
  split; [reflexivity|]. split; [exact H1|]. split; [exact H2|]. split; [exact H3|].
  exact (harness_wrong_answer_exit demo_404_env demo_server_state demo_www eq_refl H1 H2 H3).
Defined.

Lemma harness_unknown_test_exit_witness :
  let e := demo_cli_env (Some ([("-t", "doesnotexist")], ["http://maple.rlogin:12306/"])) in
  let s := demo_state [] [(".", true)] [] in
  py_contains e.(e_hostname) (strip_slashes "http://maple.rlogin:12306/") = false /\
  dir_writable (dirname (results_filename e.(e_pid))) s = true /\
  fst (run_harness e s) = ProcExit 0 /\
  exists s', main e s = (Ok tt, s') /\
    s'.(s_fs) !! results_filename e.(e_pid) = Some (e.(e_json_dump) initial_results).
Proof.
  intros e s.
  assert (H1 : py_contains e.(e_hostname) (strip_slashes "http://maple.rlogin:12306/") = false)
    by by_eval.
  assert (H2 : dir_writable (dirname (results_filename e.(e_pid))) s = true) by by_eval.
  split; [exact H1|]. split; [exact H2|].
  exact (harness_unknown_test_exit e s "http://maple.rlogin:12306/" eq_refl H1 H2).
Defined.

Lemma harness_list_tests_witness :
  e_getopt (demo_cli_env (Some ([("-l", "")], []))) = Some ([("-l", "")], []) /\
  fst (run_harness (demo_cli_env (Some ([("-l", "")], []))) (demo_state [] [] [])) = ProcExit 0 /\
  exists s', main (demo_cli_env (Some ([("-l", "")], []))) (demo_state [] [] []) =
               (Raise (SystemExit 0), s') /\
             s'.(s_trace) = ((demo_state [] [] []).(s_trace) ++ test_listing)%list /\
             s'.(s_children) = (demo_state [] [] []).(s_children) /\
             s'.(s_fs) = (demo_state [] [] []).(s_fs).
Proof.
  split; [reflexivity|].
  exact (harness_list_tests (demo_cli_env (Some ([("-l", "")], []))) (demo_state [] [] [])
           "" [] [] eq_refl).
Defined.


End Main.
